(** * Spotify-Playlist-Downloader: the download threads of the two GUIs

    A shallow embedding of the worker threads of [src/gui_test.py] and
    [src/gui_downloader.py]: [DownloadThread.run] (one download, no retry)
    and [BatchDownloadThread.run] (a file of URLs, each downloaded with a
    bounded retry loop).  The two files hold near-duplicate copies of both
    classes; each copy is embedded in a module of its own, [GuiTest] and
    [GuiDownloader], line by line.

    What the threads do is observable only through their effects: the
    signals they emit, the calls they make to the downloader, and the
    pauses of [time.sleep].  The embedding records these in a trace, in
    the order in which they happen. *)

From Stdlib Require Import String Ascii List ZArith Lia Bool Arith DecimalString.
Import ListNotations.
Local Open Scope string_scope.

(** ** Python strings *)

Module Py.

(** [str.isspace] on the ASCII range: TAB, LF, VT, FF, CR, the four
    separators FS, GS, RS, US, and the space.  Text is taken as ASCII. *)
Definition isspace (c : ascii) : bool :=
  let n := nat_of_ascii c in
  (((9 <=? n) && (n <=? 13)) || ((28 <=? n) && (n <=? 31)) || (n =? 32))%nat.

(** [str.lstrip()], [str.rstrip()] and [str.strip()] without argument. *)
Fixpoint lstrip (s : string) : string :=
  match s with
  | EmptyString => EmptyString
  | String c s' => if isspace c then lstrip s' else s
  end.

Fixpoint rstrip (s : string) : string :=
  match s with
  | EmptyString => EmptyString
  | String c s' =>
      match rstrip s' with
      | EmptyString => if isspace c then EmptyString else String c EmptyString
      | r => String c r
      end
  end.

Definition strip (s : string) : string := rstrip (lstrip s).

(** Truth value of a string: [if s] holds for the non-empty strings. *)
Definition truthy (s : string) : bool :=
  match s with EmptyString => false | String _ _ => true end.

(** [s.startswith(p)]. *)
Fixpoint startswith (s p : string) {struct p} : bool :=
  match p with
  | EmptyString => true
  | String b p' =>
      match s with
      | EmptyString => false
      | String a s' => Ascii.eqb a b && startswith s' p'
      end
  end.

(** [sub in s] for strings: [sub] occurs in [s] as a substring. *)
Fixpoint contains (sub s : string) : bool :=
  startswith s sub ||
  match s with
  | EmptyString => false
  | String _ s' => contains sub s'
  end.

(** [str.lower()] on ASCII text. *)
Definition lower_char (c : ascii) : ascii :=
  let n := nat_of_ascii c in
  if ((65 <=? n) && (n <=? 90))%nat then ascii_of_nat (n + 32) else c.

Fixpoint lower (s : string) : string :=
  match s with
  | EmptyString => EmptyString
  | String c s' => String (lower_char c) (lower s')
  end.

(** [str(n)] for a non-negative integer, as f-strings format it. *)
Definition str_of_nat (n : nat) : string := NilEmpty.string_of_uint (Nat.to_uint n).

(** The values that travel through signals and result objects. *)
Inductive value :=
| VStr (s : string)
| VInt (z : Z)
| VBool (b : bool)
| VNone.

(** [v == n] for an integer literal [n]; [False == 0] and [True == 1]
    hold in Python, a string or [None] equals no integer. *)
Definition eq_int (v : value) (n : Z) : bool :=
  match v with
  | VInt z => Z.eqb z n
  | VBool b => Z.eqb (if b then 1 else 0) n
  | VStr _ | VNone => false
  end.

(** [v in [a, b]] for a list of integer literals. *)
Definition in_ints (v : value) (ns : list Z) : bool := existsb (eq_int v) ns.

(** An exception: its class and [str(e)].  Only subclasses of [Exception]
    are modelled, which is what [except Exception] catches. *)
Record exn := { exn_class : string; exn_str : string }.

(** [range(1, n + 1)] and [enumerate(xs, 1)]. *)
Definition range1 (n : nat) : list nat := seq 1 n.

Definition enumerate1 {A : Type} (xs : list A) : list (nat * A) :=
  combine (seq 1 (length xs)) xs.

End Py.

(** ** The collaborators: Qt signals, the downloader, the clock *)

(** [str(Path(output_dir) / rel)]: an output template is the output
    directory joined with a relative pattern.  The two parts are kept
    apart; no decision of the threads looks inside the joined string. *)
Record template := Template { base : string; rel : string }.

(** The third argument of [Downloader.run_download]: left out, [None], or
    a list of extra command-line arguments. *)
Inductive extra_args :=
| NotPassed
| PassedNone
| PassedList (args : list string).

Record call := { call_url : string; call_template : template; call_extra : extra_args }.

(** What [run_download] hands back.  [Downloader] lives in
    [interactive_downloader], outside these two files, so the threads
    must cope with every behaviour: an object with a [returncode]
    attribute of any value, an object without one, or an exception. *)
Inductive result :=
| WithReturncode (rc : Py.value)
| NoReturncode.

Inductive behaviour :=
| Returns (r : result)
| Raises (e : Py.exn).

(** A downloader is given by its answer to the [n]-th call of a run
    ([n] counts the earlier calls), which may depend on the arguments. *)
Definition Downloader := nat -> call -> behaviour.

(** Result of [open(filepath, 'r')] and of iterating over the file: the
    lines as the iterator yields them, or the exception raised. *)
Inductive file_read :=
| Lines (ls : list string)
| ReadError (e : Py.exn).

Inductive effect :=
| Configure (bitrate audio_format output_dir : string)
| Emit (signal : string) (args : list Py.value)
| Call (c : call) (b : behaviour)
| Sleep (secs : nat).

Module Qt.

(** The argument types a [pyqtSignal(...)] is declared with. *)
Inductive qtype := QStr | QInt | QBool.

Record signal := Signal { sig_name : string; sig_types : list qtype }.

(** Whether a Python value converts to the declared C++ type.  The
    threads pass strings, integers and booleans only. *)
Definition accepts (t : qtype) (v : Py.value) : bool :=
  match t, v with
  | QStr, Py.VStr _ => true
  | QInt, (Py.VInt _ | Py.VBool _) => true
  | QBool, (Py.VBool _ | Py.VInt _) => true
  | _, _ => false
  end.

Fixpoint first_mismatch (n : nat) (ts : list qtype) (vs : list Py.value) : option nat :=
  match ts, vs with
  | t :: ts', v :: vs' => if accepts t v then first_mismatch (S n) ts' vs' else Some n
  | _, _ => None
  end.

Definition type_name (v : Py.value) : string :=
  match v with
  | Py.VStr _ => "str"
  | Py.VInt _ => "int"
  | Py.VBool _ => "bool"
  | Py.VNone => "NoneType"
  end.

(** [signal.emit(args)] of PyQt5 checks the arguments against the
    signature the signal was declared with, before anything is
    delivered and whether or not a slot is connected: a wrong number of
    arguments, or an argument that does not convert to the declared
    type, raises [TypeError].  A signal declared [pyqtSignal(str, str)]
    therefore refuses [emit("message")].  The wording of the message
    differs between PyQt versions; nothing below depends on it. *)
Definition check (sg : signal) (args : list Py.value) : option Py.exn :=
  if negb (length (sig_types sg) =? length args)%nat then
    Some {| Py.exn_class := "TypeError";
            Py.exn_str := sig_name sg ++ " signal has "
                          ++ Py.str_of_nat (length (sig_types sg))
                          ++ " argument(s) but "
                          ++ Py.str_of_nat (length args) ++ " provided" |}
  else
    match first_mismatch 1 (sig_types sg) args with
    | Some n =>
        Some {| Py.exn_class := "TypeError";
                Py.exn_str := sig_name sg ++ ".emit(): argument "
                              ++ Py.str_of_nat n ++ " has unexpected type '"
                              ++ type_name (nth (n - 1) args Py.VNone) ++ "'" |}
    | None => None
    end.

End Qt.

(** ** The monad of a thread's [run] *)

(** The state of a run: the effects so far, oldest first, and the
    counter that [BatchDownloadThread.run] keeps in a local variable
    ([success_count] in gui_test.py, [success] in gui_downloader.py).
    An exception does not undo either. *)
Record state := { trace : list effect; successes : nat }.

Inductive outcome (A : Type) :=
| Normal (a : A)
| Raised (e : Py.exn).
Arguments Normal {A} a.
Arguments Raised {A} e.

Definition M (A : Type) : Type := state -> outcome A * state.

Definition ret {A} (a : A) : M A := fun s => (Normal a, s).

Definition bind {A B} (m : M A) (k : A -> M B) : M B :=
  fun s =>
    match m s with
    | (Normal a, s') => k a s'
    | (Raised e, s') => (Raised e, s')
    end.

Definition raise {A} (e : Py.exn) : M A := fun s => (Raised e, s).

(** [try: body  except Exception as e: handler e]. *)
Definition try_except {A} (body : M A) (handler : Py.exn -> M A) : M A :=
  fun s =>
    match body s with
    | (Normal a, s') => (Normal a, s')
    | (Raised e, s') => handler e s'
    end.

Declare Scope py_scope.
Delimit Scope py_scope with py.
Notation "x <- m ;; k" := (bind m (fun x => k))
  (at level 61, m at next level, right associativity) : py_scope.
Notation "m ;; k" := (bind m (fun _ => k))
  (at level 61, right associativity) : py_scope.
Local Open Scope py_scope.

Definition perform (e : effect) : M unit :=
  fun s => (Normal tt, {| trace := trace s ++ [e]; successes := successes s |}).

(** [signal.emit(args)]. *)
Definition emit (sg : Qt.signal) (args : list Py.value) : M unit :=
  match Qt.check sg args with
  | Some e => raise e
  | None => perform (Emit (Qt.sig_name sg) args)
  end.

(** [time.sleep(secs)]. *)
Definition sleep (secs : nat) : M unit := perform (Sleep secs).

Definition is_call (e : effect) : bool :=
  match e with Call _ _ => true | _ => false end.

Definition calls_made (t : list effect) : nat := length (filter is_call t).

(** [downloader.run_download(url, template, extra)]: the call is made,
    and the downloader's answer is a result or an exception. *)
Definition run_download (dl : Downloader) (url : string) (tpl : template)
    (extra : extra_args) : M result :=
  fun s =>
    let c := {| call_url := url; call_template := tpl; call_extra := extra |} in
    let b := dl (calls_made (trace s)) c in
    let s' := {| trace := trace s ++ [Call c b]; successes := successes s |} in
    match b with
    | Returns r => (Normal r, s')
    | Raises e => (Raised e, s')
    end.

(** The local success counter: [success_count += 1] and its reading. *)
Definition incr_success : M unit :=
  fun s => (Normal tt, {| trace := trace s; successes := S (successes s) |}).

Definition get_success : M nat := fun s => (Normal (successes s), s).

Definition set_success (n : nat) : M unit :=
  fun s => (Normal tt, {| trace := trace s; successes := n |}).

(** [with open(path, 'r') as file] and the iteration over [file]. *)
Definition read_lines (fs : string -> file_read) (path : string) : M (list string) :=
  match fs path with
  | Lines ls => ret ls
  | ReadError e => raise e
  end.

(** A [for] loop whose body may [break]. *)
Inductive flow := Next | Break.

Fixpoint for_each {A} (xs : list A) (body : A -> M flow) : M unit :=
  match xs with
  | [] => ret tt
  | x :: xs' =>
      f <- body x ;;
      match f with
      | Break => ret tt
      | Next => for_each xs' body
      end
  end.

Definition initial : state := {| trace := []; successes := 0 |}.

(** [hasattr(result, 'returncode')] and [result.returncode]. *)
Definition hasattr_returncode (r : result) : bool :=
  match r with WithReturncode _ => true | NoReturncode => false end.

Definition returncode (r : result) : Py.value :=
  match r with WithReturncode rc => rc | NoReturncode => Py.VNone end.

Definition nl : string := String (ascii_of_nat 10) EmptyString.

(** The value a chain of [if]/[elif] branches leaves in the local variable
    [result]: bound to what the downloader returned, never assigned, or
    the method has already returned. *)
Inductive branch :=
| Bound (r : result)
| Unbound
| Returned.

(** Reading the local [result] that no branch has assigned. *)
Definition unbound_result : Py.exn :=
  {| Py.exn_class := "UnboundLocalError";
     Py.exn_str := "cannot access local variable 'result' where it is not associated with a value" |}.

(** The list comprehension both batch threads read the file with:
    [[line.strip() for line in file
        if line.strip() and not line.strip().startswith('#')]]. *)
Definition read_urls (lines : list string) : list string :=
  map Py.strip
    (filter (fun line => Py.truthy (Py.strip line)
                         && negb (Py.startswith (Py.strip line) "#")) lines).

(** ** gui_test.py *)

Module GuiTest.

Module DownloadThread.

(** Class attributes, lines 24-26. *)
Definition update_signal := Qt.Signal "update_signal" [Qt.QStr].
Definition progress_signal := Qt.Signal "progress_signal" [Qt.QInt].
Definition finished_signal := Qt.Signal "finished_signal" [Qt.QBool; Qt.QStr].

(** [__init__], lines 28-35. *)
Record t := init {
  downloader : Downloader;
  url : string;
  download_type : string;
  output_dir : string;
  bitrate : string;
  audio_format : string
}.

(** Lines 73-86: the result check. *)
Definition check_result (result : result) : M unit :=
  if hasattr_returncode result then
    if Py.eq_int (returncode result) 100 then
      emit update_signal [Py.VStr "Error: Metadata TypeError"] ;;
      emit finished_signal [Py.VBool false; Py.VStr "Metadata TypeError"]
    else if Py.eq_int (returncode result) 101 then
      emit update_signal [Py.VStr "Error: No results found"] ;;
      emit finished_signal [Py.VBool false; Py.VStr "No results found"]
    else if Py.eq_int (returncode result) 0 then
      emit update_signal [Py.VStr "Download completed successfully!"] ;;
      emit finished_signal [Py.VBool true; Py.VStr "Download successful"]
    else ret tt
  else
    emit update_signal [Py.VStr "Download failed"] ;;
    emit finished_signal [Py.VBool false; Py.VStr "Download failed"].

(** [run], lines 37-90. *)
Definition run (self : t) : M unit :=
  try_except
    (perform (Configure (bitrate self) (audio_format self) (output_dir self)) ;;
     emit update_signal [Py.VStr ("Starting download..." ++ nl ++ "URL: " ++ url self)] ;;
     b <- (if download_type self =? "track_album" then
             let output_template :=
               if Py.contains "album" (Py.lower (url self))
               then Template (output_dir self) "{artist}/{album}/{title}.{output-ext}"
               else Template (output_dir self) "{artist} - {title}.{output-ext}" in
             result <- run_download (downloader self) (url self) output_template NotPassed ;;
             ret (Bound result)
           else if download_type self =? "playlist" then
             let output_template :=
               Template (output_dir self) "{playlist}/{title}.{output-ext}" in
             result <- run_download (downloader self) (url self) output_template
                         (PassedList ["--playlist-numbering"; "--playlist-retain-track-cover"]) ;;
             ret (Bound result)
           else if download_type self =? "search" then
             let output_template :=
               Template (output_dir self) "{artist} - {title}.{output-ext}" in
             result <- run_download (downloader self) (url self) output_template NotPassed ;;
             ret (Bound result)
           else if download_type self =? "file" then
             emit update_signal
               [Py.VStr "Batch download from file selected. Use the 'Batch Download' tab."] ;;
             emit finished_signal
               [Py.VBool false; Py.VStr "Use Batch Download tab for file downloads"] ;;
             ret Returned
           else ret Unbound) ;;
     match b with
     | Returned => ret tt
     | Unbound => raise unbound_result
     | Bound result => check_result result
     end)
    (fun e =>
       emit update_signal [Py.VStr ("Error: " ++ Py.exn_str e)] ;;
       emit finished_signal [Py.VBool false; Py.VStr (Py.exn_str e)]).

End DownloadThread.

Module BatchDownloadThread.

(** Class attributes, lines 95-97. *)
Definition update_signal := Qt.Signal "update_signal" [Qt.QStr; Qt.QStr].
Definition progress_signal := Qt.Signal "progress_signal" [Qt.QInt; Qt.QInt].
Definition finished_signal := Qt.Signal "finished_signal" [Qt.QInt; Qt.QInt].

(** [__init__], lines 99-107: all seven arguments are kept. *)
Record t := init {
  downloader : Downloader;
  filepath : string;
  output_dir : string;
  bitrate : string;
  audio_format : string;
  max_retries : nat;
  retry_delay : nat
}.

(** Lines 139-148: the template and the extra arguments for a URL. *)
Definition select_template (self : t) (url : string) : template * extra_args :=
  if Py.contains "playlist" (Py.lower url) then
    (Template (output_dir self) "{playlist}/{title}.{output-ext}",
     PassedList ["--playlist-numbering"; "--playlist-retain-track-cover"])
  else if Py.contains "album" (Py.lower url) then
    (Template (output_dir self) "{artist}/{album}/{title}.{output-ext}", PassedNone)
  else
    (Template (output_dir self) "{artist} - {title}.{output-ext}", PassedNone).

(** Lines 152-175: the body of the retry loop for one attempt. *)
Definition attempt_body (self : t) (url : string) (output_template : template)
    (additional_args : extra_args) (attempt : nat) : M flow :=
  emit update_signal
    [Py.VStr ("  Attempt " ++ Py.str_of_nat attempt ++ "/" ++ Py.str_of_nat (max_retries self));
     Py.VStr "info"] ;;
  try_except
    (result <- run_download (downloader self) url output_template additional_args ;;
     f <- (if hasattr_returncode result then
             if Py.eq_int (returncode result) 0 then
               incr_success ;;
               emit update_signal [Py.VStr "  ✓ Successfully downloaded"; Py.VStr "success"] ;;
               ret Break
             else if Py.in_ints (returncode result) [100; 101]%Z then
               emit update_signal [Py.VStr "  ✗ Non-retryable error"; Py.VStr "error"] ;;
               ret Break
             else ret Next
           else ret Next) ;;
     match f with
     | Break => ret Break
     | Next =>
         if (attempt <? max_retries self)%nat then
           sleep (retry_delay self) ;; ret Next
         else
           emit update_signal
             [Py.VStr ("  ✗ Failed after " ++ Py.str_of_nat (max_retries self) ++ " attempts");
              Py.VStr "error"] ;;
           ret Next
     end)
    (fun e =>
       emit update_signal [Py.VStr ("  ✗ Exception: " ++ Py.exn_str e); Py.VStr "error"] ;;
       if (attempt =? max_retries self)%nat then ret Break
       else sleep (retry_delay self) ;; ret Next).

(** Lines 150-175: the retry loop of one URL,
    [for attempt in range(1, self.max_retries + 1)]. *)
Definition retry_loop (self : t) (url : string) (output_template : template)
    (additional_args : extra_args) : M unit :=
  for_each (Py.range1 (max_retries self))
           (attempt_body self url output_template additional_args).

(** Lines 135-175: one iteration of the loop over the URLs. *)
Definition process_url (self : t) (total : nat) (job : nat * string) : M flow :=
  let '(i, url) := job in
  emit progress_signal [Py.VInt (Z.of_nat i); Py.VInt (Z.of_nat total)] ;;
  emit update_signal
    [Py.VStr ("Processing " ++ Py.str_of_nat i ++ "/" ++ Py.str_of_nat total ++ ": " ++ url);
     Py.VStr "info"] ;;
  let '(output_template, additional_args) := select_template self url in
  retry_loop self url output_template additional_args ;;
  ret Next.

(** [run], lines 109-177.  [fs] is the file system: what opening and
    reading a path gives. *)
Definition run (fs : string -> file_read) (self : t) : M unit :=
  perform (Configure (bitrate self) (audio_format self) (output_dir self)) ;;
  read <- try_except
            (ls <- read_lines fs (filepath self) ;; ret (Some (read_urls ls)))
            (fun e =>
               emit update_signal
                 [Py.VStr ("Error reading file: " ++ Py.exn_str e); Py.VStr "error"] ;;
               emit finished_signal [Py.VInt 0; Py.VInt 0] ;;
               ret None) ;;
  match read with
  | None => ret tt
  | Some [] =>
      emit update_signal [Py.VStr "No URLs found in file"; Py.VStr "warning"] ;;
      emit finished_signal [Py.VInt 0; Py.VInt 0]
  | Some urls =>
      let total := length urls in
      set_success 0 ;;
      for_each (Py.enumerate1 urls) (process_url self total) ;;
      success_count <- get_success ;;
      emit finished_signal [Py.VInt (Z.of_nat success_count); Py.VInt (Z.of_nat total)]
  end.

End BatchDownloadThread.

End GuiTest.

(** ** gui_downloader.py *)

Module GuiDownloader.

(** Lines 26-27. *)
Definition MAX_RETRIES : nat := 5.
Definition RETRY_DELAY : nat := 30.

(** [self.__output_dir] written inside class [cls]: Python mangles the
    name to [_cls__output_dir].  Neither class assigns that attribute
    ([__init__] sets [self.output_dir]), so reading it raises. *)
Definition attribute_error (cls : string) : Py.exn :=
  {| Py.exn_class := "AttributeError";
     Py.exn_str := "'" ++ cls ++ "' object has no attribute '_" ++ cls ++ "__output_dir'" |}.

Definition private_output_dir (cls : string) : M string :=
  raise (attribute_error cls).

Module DownloadThread.

(** Class attributes, lines 31-33. *)
Definition update_signal := Qt.Signal "update_signal" [Qt.QStr].
Definition progress_signal := Qt.Signal "progress_signal" [Qt.QStr].
Definition finished_signal := Qt.Signal "finished_signal" [Qt.QBool; Qt.QStr].

(** [__init__], lines 35-42. *)
Record t := init {
  downloader : Downloader;
  url : string;
  download_type : string;
  output_dir : string;
  bitrate : string;
  audio_format : string
}.

(** Lines 87-100: the result check. *)
Definition check_result (result : result) : M unit :=
  if hasattr_returncode result then
    if Py.eq_int (returncode result) 0 then
      emit update_signal [Py.VStr "Download Completed"] ;;
      emit finished_signal [Py.VBool true; Py.VStr "Successful Download"]
    else if Py.eq_int (returncode result) 100 then
      emit update_signal [Py.VStr "Error: Metadata TypeError"] ;;
      emit finished_signal [Py.VBool false; Py.VStr "Metadata TypeError"]
    else if Py.eq_int (returncode result) 101 then
      emit update_signal [Py.VStr "Error: Lookup Error"] ;;
      emit finished_signal [Py.VBool false; Py.VStr "Lookup Error"]
    else ret tt
  else
    emit update_signal [Py.VStr "Download Failed"] ;;
    emit finished_signal [Py.VBool false; Py.VStr "Download failed"].

(** [run], lines 44-104. *)
Definition run (self : t) : M unit :=
  try_except
    (perform (Configure (bitrate self) (audio_format self) (output_dir self)) ;;
     emit update_signal [Py.VStr ("Starting download..." ++ nl ++ " URL: " ++ url self)] ;;
     b <- (if download_type self =? "track" then
             let output_template := Template (output_dir self) "{title}.{output-ext}" in
             result <- run_download (downloader self) (url self) output_template NotPassed ;;
             ret (Bound result)
           else if download_type self =? "album" then
             let output_template :=
               Template (output_dir self) "{artist}/{album}/{title}.{output-ext}" in
             result <- run_download (downloader self) (url self) output_template NotPassed ;;
             ret (Bound result)
           else if download_type self =? "playlist" then
             d <- private_output_dir "DownloadThread" ;;
             let output_template := Template d "{playlist}/{title}.{output-ext}" in
             result <- run_download (downloader self) (url self) output_template
                         (PassedList ["--playlist-numbering"; "--playlist-retaining"]) ;;
             ret (Bound result)
           else if download_type self =? "search" then
             let output_template := Template (output_dir self) "{title}.{output-ext} " in
             result <- run_download (downloader self) (url self) output_template NotPassed ;;
             ret (Bound result)
           else if download_type self =? "file" then
             emit update_signal
               [Py.VStr "Batch download from file selected. Use the 'Batch Download' tab. "] ;;
             emit finished_signal
               [Py.VBool false; Py.VStr "Use Batch Download tab for file download"] ;;
             ret Returned
           else ret Unbound) ;;
     match b with
     | Returned => ret tt
     | Unbound => raise unbound_result
     | Bound result => check_result result
     end)
    (fun e =>
       emit update_signal [Py.VStr ("Error: " ++ Py.exn_str e)] ;;
       emit finished_signal [Py.VBool false; Py.VStr (Py.exn_str e)]).

End DownloadThread.

Module BatchDownloadThread.

(** Class attributes, lines 109-111. *)
Definition update_signal := Qt.Signal "update_signal" [Qt.QStr; Qt.QStr].
Definition progress_signal := Qt.Signal "progress_signal" [Qt.QInt; Qt.QInt].
Definition finished_signal := Qt.Signal "finished_signal" [Qt.QInt; Qt.QInt].

(** The attributes [__init__] assigns, lines 115-119. *)
Record t := Build {
  downloader : Downloader;
  filepath : string;
  output_dir : string;
  bitrate : string;
  audio_format : string
}.

(** [__init__], lines 113-119: it takes [max_retries] and [retry_delay]
    and stores neither. *)
Definition init (dl : Downloader) (path dir rate format : string)
    (max_retries retry_delay : nat) : t :=
  {| downloader := dl; filepath := path; output_dir := dir;
     bitrate := rate; audio_format := format |}.

(** Lines 148-162: the template and the extra arguments for a URL.  The
    album test comes first here, and the playlist branch reads
    [self.__output_dir], so the choice can raise. *)
Definition select_template (self : t) (url : string) : M (template * extra_args) :=
  if Py.contains "album" (Py.lower url) then
    ret (Template (output_dir self) "{artist}/{album}/{title}.{output-ext}", PassedNone)
  else if Py.contains "playlist" (Py.lower url) then
    d <- private_output_dir "BatchDownloadThread" ;;
    ret (Template d "{playlist}/{title}.{output-ext}",
         PassedList ["--playlist-numbering"; "--playlist-retain-track-cover"])
  else
    ret (Template (output_dir self) "{title}.{output-ext}", PassedNone).

(** Lines 165-195: the body of the retry loop for one attempt. *)
Definition attempt_body (self : t) (url : string) (output_template : template)
    (additional_args : extra_args) (attempt : nat) : M flow :=
  emit update_signal
    [Py.VStr ("Download Attempt " ++ Py.str_of_nat attempt ++ "/" ++ Py.str_of_nat MAX_RETRIES);
     Py.VStr "info"] ;;
  try_except
    (result <- run_download (downloader self) url output_template additional_args ;;
     f <- (if hasattr_returncode result then
             if Py.eq_int (returncode result) 0 then
               incr_success ;;
               emit update_signal [Py.VStr "Download Completed"] ;;
               ret Break
             else if Py.eq_int (returncode result) 100 then
               emit update_signal [Py.VStr "Error: Metadata TypeError"] ;;
               ret Break
             else if Py.eq_int (returncode result) 101 then
               emit update_signal [Py.VStr "Error: Lookup Error"] ;;
               ret Break
             else ret Next
           else ret Next) ;;
     match f with
     | Break => ret Break
     | Next =>
         if (attempt <? MAX_RETRIES)%nat then
           sleep RETRY_DELAY ;; ret Next
         else
           emit update_signal
             [Py.VStr ("Download Failed after " ++ Py.str_of_nat MAX_RETRIES ++ " attempts")] ;;
           emit finished_signal [Py.VBool false; Py.VStr "Download failed"] ;;
           ret Next
     end)
    (fun e =>
       emit update_signal [Py.VStr ("Exception: " ++ Py.exn_str e); Py.VStr "error"] ;;
       if (attempt =? MAX_RETRIES)%nat then ret Break
       else sleep RETRY_DELAY ;; ret Next).

(** Lines 164-195: the retry loop of one URL,
    [for attempt in range(1, MAX_RETRIES + 1)]. *)
Definition retry_loop (self : t) (url : string) (output_template : template)
    (additional_args : extra_args) : M unit :=
  for_each (Py.range1 MAX_RETRIES)
           (attempt_body self url output_template additional_args).

(** Lines 144-195: one iteration of the loop over the URLs. *)
Definition process_url (self : t) (total : nat) (job : nat * string) : M flow :=
  let '(i, url) := job in
  emit progress_signal [Py.VInt (Z.of_nat i); Py.VInt (Z.of_nat total)] ;;
  emit update_signal
    [Py.VStr ("Processing " ++ Py.str_of_nat i ++ "/" ++ Py.str_of_nat total ++ ": " ++ url);
     Py.VStr "info"] ;;
  sel <- select_template self url ;;
  let '(output_template, additional_args) := sel in
  retry_loop self url output_template additional_args ;;
  ret Next.

(** [run], lines 121-197. *)
Definition run (fs : string -> file_read) (self : t) : M unit :=
  perform (Configure (bitrate self) (audio_format self) (output_dir self)) ;;
  read <- try_except
            (ls <- read_lines fs (filepath self) ;; ret (Some (read_urls ls)))
            (fun e =>
               emit update_signal [Py.VStr ("Couldn't read the file: " ++ Py.exn_str e)] ;;
               emit finished_signal [Py.VInt 0; Py.VInt 0] ;;
               ret None) ;;
  match read with
  | None => ret tt
  | Some [] =>
      emit update_signal [Py.VStr "No URLs in the file"; Py.VStr "warning"] ;;
      emit finished_signal [Py.VInt 0; Py.VInt 0]
  | Some urls =>
      let total := length urls in
      set_success 0 ;;
      for_each (Py.enumerate1 urls) (process_url self total) ;;
      success <- get_success ;;
      emit finished_signal [Py.VInt (Z.of_nat success); Py.VInt (Z.of_nat total)]
  end.

End BatchDownloadThread.

End GuiDownloader.

(** ** Reading a trace *)

(** The terminal events of a run: the emissions of [finished_signal]. *)
Definition summaries (t : list effect) : list (list Py.value) :=
  flat_map (fun e => match e with
                     | Emit n args => if n =? "finished_signal" then [args] else []
                     | _ => []
                     end) t.

Definition calls (t : list effect) : list (call * behaviour) :=
  flat_map (fun e => match e with Call c b => [(c, b)] | _ => [] end) t.

Definition sleeps (t : list effect) : list nat :=
  flat_map (fun e => match e with Sleep n => [n] | _ => [] end) t.

(** Running a thread from the initial state. *)
Definition exec {A} (m : M A) : outcome A * list effect :=
  let '(o, s) := m initial in (o, trace s).

(** ** The vocabulary of the specification *)

(** The downloader interface of the specification: status [0] is success,
    [100] a metadata-type error, [101] a lookup error, anything else or
    an exception an unknown failure. *)
Inductive AttemptResult := Success | MetadataError | LookupError | UnknownFailure.

Definition attempt_result (b : behaviour) : AttemptResult :=
  match b with
  | Returns (WithReturncode rc) =>
      if Py.eq_int rc 0 then Success
      else if Py.eq_int rc 100 then MetadataError
      else if Py.eq_int rc 101 then LookupError
      else UnknownFailure
  | Returns NoReturncode => UnknownFailure
  | Raises _ => UnknownFailure
  end.

Record JobOutcome := { succeeded : bool; attemptsUsed : nat }.

(** The retry controller as the specification words it: attempts
    [attempt], [attempt + 1], ... while [remaining] are left; a success
    or a classified failure stops the loop, an unknown failure pauses
    and goes on unless the attempt was the last one.  The second
    component counts the pauses. *)
Fixpoint runWithRetries (results : nat -> AttemptResult) (attempt remaining : nat)
    : JobOutcome * nat :=
  match remaining with
  | 0 => ({| succeeded := false; attemptsUsed := attempt - 1 |}, 0)
  | S remaining' =>
      match results attempt with
      | Success => ({| succeeded := true; attemptsUsed := attempt |}, 0)
      | MetadataError | LookupError => ({| succeeded := false; attemptsUsed := attempt |}, 0)
      | UnknownFailure =>
          match remaining' with
          | 0 => ({| succeeded := false; attemptsUsed := attempt |}, 0)
          | S _ =>
              let '(o, pauses) := runWithRetries results (S attempt) remaining' in
              (o, S pauses)
          end
      end
  end.

(** A line of the batch file that is a job: not blank after trimming,
    and its first character that is not white space is not [#]. *)
Definition is_job_line (line : string) : bool :=
  match Py.lstrip line with
  | EmptyString => false
  | String c _ => negb (Ascii.eqb c "#")
  end.

Definition count_job_lines (lines : list string) : nat :=
  length (filter is_job_line lines).

(** The calls of a trace that the downloader answered with success. *)
Definition is_success (cb : call * behaviour) : bool :=
  match attempt_result (snd cb) with Success => true | _ => false end.

Definition count_success (cs : list (call * behaviour)) : nat :=
  length (filter is_success cs).

(** The call [BatchDownloadThread.run] of gui_test.py makes for a URL. *)
Definition gui_test_call (self : GuiTest.BatchDownloadThread.t) (url : string) : call :=
  {| call_url := url;
     call_template := fst (GuiTest.BatchDownloadThread.select_template self url);
     call_extra := snd (GuiTest.BatchDownloadThread.select_template self url) |}.

(** ** Stub collaborators *)

(** A downloader that gives the same answer to every call, and one whose
    answers are listed call by call, [last] from the end of the list on. *)
Definition always (b : behaviour) : Downloader := fun _ _ => b.

Definition answers (bs : list behaviour) (last : behaviour) : Downloader :=
  fun n _ => nth n bs last.

Definition returns (rc : Z) : behaviour := Returns (WithReturncode (Py.VInt rc)).

(** A file system in which every path holds the given lines, and one in
    which no path can be opened. *)
Definition file_with (lines : list string) : string -> file_read := fun _ => Lines lines.

Definition no_such_file : string -> file_read :=
  fun path =>
    ReadError {| Py.exn_class := "FileNotFoundError";
                 Py.exn_str := "[Errno 2] No such file or directory: '" ++ path ++ "'" |}.

(** Lines of a batch file. *)
Definition playlist_url : string :=
  "https://open.spotify.com/playlist/37i9dQZF1DXcBWIGoYBM5M".

Definition track_url : string :=
  "https://open.spotify.com/track/4uLU6hMCjMI75M1A2tKUQC".

Definition playlist_album_url : string :=
  "https://open.spotify.com/playlist/37i9dQZF1DXcBWIGoYBM5M?context=album".

Definition attribute_error := GuiDownloader.attribute_error.

(** The [TypeError] of an emission of one argument on the two-argument
    [update_signal]. *)
Definition arity_error : Py.exn :=
  {| Py.exn_class := "TypeError";
     Py.exn_str := "update_signal signal has 2 argument(s) but 1 provided" |}.

(** ** More of Python's strings *)

(** [str(z)] for an integer, [s * n], [''.join(lines)], [s[:n]]. *)
Definition str_of_int (z : Z) : string :=
  if (z <? 0)%Z then "-" ++ Py.str_of_nat (Z.to_nat (- z)) else Py.str_of_nat (Z.to_nat z).

Fixpoint str_times (s : string) (n : nat) : string :=
  match n with
  | 0 => EmptyString
  | S n' => s ++ str_times s n'
  end.

Fixpoint join (lines : list string) : string :=
  match lines with
  | [] => EmptyString
  | line :: rest => line ++ join rest
  end.

Definition take (n : nat) (s : string) : string := substring 0 n s.



(** [d.get(key, default)] for a dictionary written as a literal. *)
Fixpoint dict_get (d : list (string * string)) (key default : string) : string :=
  match d with
  | [] => default
  | (k, v) :: d' => if k =? key then v else dict_get d' key default
  end.


Definition file_not_found (path : string) : Py.exn :=
  {| Py.exn_class := "FileNotFoundError";
     Py.exn_str := "[Errno 2] No such file or directory: '" ++ path ++ "'" |}.

(** ** gui_test.py: the window, [SpotifyDownloaderGUI] *)

Module SpotifyDownloaderGUI.

(** The threads the window starts. *)
Inductive thread :=
| Single (t : GuiTest.DownloadThread.t)
| Batch (t : GuiTest.BatchDownloadThread.t).

(** What a method of the window does, as seen from outside:
    [self.name.method(args)] on one of its widgets, a [QMessageBox], a
    call to the operating system or to the downloader, the start of a
    thread. *)
Inductive ui :=
| Widget (name method : string) (args : list Py.value)
| MessageBox (kind title text : string)
| Makedirs (path : string)
| Start (th : thread)
| SetConfig (bitrate audio_format output_dir : string)
| Invoke (method : string)
| Pip.

Inductive button := Yes | No.

(** What a method of [self.downloader] hands back. *)
Inductive returned (A : Type) :=
| Gives (a : A)
| Throws (e : Py.exn).
Arguments Gives {A} a.
Arguments Throws {A} e.

(** [self.downloader]: the [Downloader] of [interactive_downloader], of
    which the window uses these methods ([run_download_method] is its
    [run_download], which the threads call). *)
Record Backend := {
  run_download_method : Downloader;
  check_spotdl : returned bool;
  show_spotdl_help : returned unit;
  program_info : returned unit;
  download_user_playlist : returned bool;
  download_user_liked_songs : returned bool;
  download_user_saved_albums : returned bool
}.

(** The surroundings of the window: the operating system and the user
    in front of the dialogs. *)
Record environment := {
  makedirs : string -> option Py.exn;
  path_join : string -> string -> string;
  open_for_writing : string -> option Py.exn;
  check_call : option Py.exn;
  answer : string -> button;
  chosen : string -> string
}.

(** The values the input widgets hold. *)
Record form := {
  url_input : string;
  search_checkbox : bool;
  format_combo : string;
  bitrate_combo : string;
  output_dir_input : string;
  batch_file_input : string;
  use_same_settings_check : bool;
  max_retries_spin : nat;
  retry_delay_spin : nat;
  log_combo : string
}.

(** The form as [init_ui] builds it (lines 250-268, 350-366, 502). *)
Definition initial_form : form :=
  {| url_input := EmptyString; search_checkbox := false; format_combo := "mp3";
     bitrate_combo := "320k"; output_dir_input := "Downloads";
     batch_file_input := EmptyString; use_same_settings_check := true;
     max_retries_spin := 5; retry_delay_spin := 20; log_combo := "success.log" |}.

(** A [QSpinBox] keeps its value inside its range:
    [setRange(1, 10)] and [setRange(1, 60)], lines 351 and 357. *)
Definition spins_in_range (w : form) : Prop :=
  1 <= max_retries_spin w <= 10 /\ 1 <= retry_delay_spin w <= 60.

(** The state of the window and of the disk under it: a path holds a
    file, given by what reading it yields, or nothing. *)
Record world := {
  inputs : form;
  shown : list ui;
  disk : string -> option file_read
}.

Definition U (A : Type) : Type := world -> outcome A * world.

Definition uret {A} (a : A) : U A := fun w => (Normal a, w).

Definition ubind {A B} (m : U A) (k : A -> U B) : U B :=
  fun w =>
    match m w with
    | (Normal a, w') => k a w'
    | (Raised e, w') => (Raised e, w')
    end.

Definition uraise {A} (e : Py.exn) : U A := fun w => (Raised e, w).

(** [try: body  except Exception as e: handler e]. *)
Definition utry {A} (body : U A) (handler : Py.exn -> U A) : U A :=
  fun w =>
    match body w with
    | (Normal a, w') => (Normal a, w')
    | (Raised e, w') => handler e w'
    end.

(** [try: body  except cls as e: handler e]: another exception goes
    through. *)
Definition utry_class {A} (cls : string) (body : U A) (handler : Py.exn -> U A) : U A :=
  fun w =>
    match body w with
    | (Normal a, w') => (Normal a, w')
    | (Raised e, w') => if Py.exn_class e =? cls then handler e w' else (Raised e, w')
    end.

Declare Scope ui_scope.
Delimit Scope ui_scope with ui.
Notation "x <- m ;; k" := (ubind m (fun x => k))
  (at level 61, m at next level, right associativity) : ui_scope.
Notation "m ;; k" := (ubind m (fun _ => k))
  (at level 61, right associativity) : ui_scope.
Local Open Scope ui_scope.

Definition show (e : ui) : U unit :=
  fun w => (Normal tt, {| inputs := inputs w; shown := shown w ++ [e]; disk := disk w |}).

Definition widget (name method : string) (args : list Py.value) : U unit :=
  show (Widget name method args).

Definition read_form : U form := fun w => (Normal (inputs w), w).


(** [os.path.exists(path)]. *)
Definition path_exists (path : string) : U bool :=
  fun w => (Normal (match disk w path with Some _ => true | None => false end), w).

(** [with open(path, 'r') as file]: the lines of the file. *)
Definition open_lines (path : string) : U (list string) :=
  fun w =>
    match disk w path with
    | Some (Lines ls) => (Normal ls, w)
    | Some (ReadError e) => (Raised e, w)
    | None => (Raised (file_not_found path), w)
    end.

(** The file system as a thread sees it. *)
Definition fs_of (d : string -> option file_read) : string -> file_read :=
  fun path =>
    match d path with
    | Some f => f
    | None => ReadError (file_not_found path)
    end.

Section Methods.

Variable env : environment.
Variable backend : Backend.

(** [QMessageBox.kind(self, title, text)] and the button it returns. *)
Definition message_box (kind title text : string) : U button :=
  show (MessageBox kind title text) ;; uret (answer env title).

(** [os.makedirs(path, exist_ok=True)]. *)
Definition os_makedirs (path : string) : U unit :=
  show (Makedirs path) ;;
  match makedirs env path with
  | Some e => uraise e
  | None => uret tt
  end.


(** A call [self.downloader.method()]. *)
Definition call_backend {A} (method : string) (r : returned A) : U A :=
  show (Invoke method) ;;
  match r with
  | Gives a => uret a
  | Throws e => uraise e
  end.

(** [preview_batch_file], lines 557-567. *)
Definition preview_batch_file (file_path : string) : U unit :=
  utry
    (all <- open_lines file_path ;;
     let lines := firstn 10 all in
     let content := join lines in
     let content :=
       if (500 <? String.length content)%nat
       then take 500 content ++ nl ++ "... (truncated)"
       else content in
     widget "file_preview" "setText" [Py.VStr content])
    (fun e =>
       widget "file_preview" "setText" [Py.VStr ("Error reading file: " ++ Py.exn_str e)]).



(** [start_single_download], lines 569-622. *)
Definition start_single_download : U unit :=
  w <- read_form ;;
  let url := Py.strip (url_input w) in
  if negb (Py.truthy url) then
    message_box "warning" "Warning" "Please enter a URL or search query." ;; uret tt
  else
    let choice :=
      if search_checkbox w then Some "search"
      else if negb (Py.contains "spotify.com" (Py.lower url))
              && negb (Py.startswith url "spotify:") then None
      else if Py.contains "playlist" (Py.lower url) then Some "playlist"
      else Some "track_album" in
    match choice with
    | None =>
        message_box "warning" "Warning"
          "Please enter a valid Spotify URL or enable search mode." ;;
        uret tt
    | Some download_type =>
        let output_dir := output_dir_input w in
        let bitrate := bitrate_combo w in
        let audio_format := format_combo w in
        os_makedirs output_dir ;;
        widget "download_button" "setEnabled" [Py.VBool false] ;;
        widget "download_button" "setText" [Py.VStr "Downloading..."] ;;
        widget "progress_bar" "setVisible" [Py.VBool true] ;;
        widget "progress_bar" "setRange" [Py.VInt 0; Py.VInt 0] ;;
        widget "console_output" "clear" [] ;;
        show (Start (Single (GuiTest.DownloadThread.init (run_download_method backend)
                               url download_type output_dir bitrate audio_format)))
    end.

(** [start_batch_download], lines 624-669. *)
Definition start_batch_download : U unit :=
  w <- read_form ;;
  let file_path := batch_file_input w in
  found <- path_exists file_path ;;
  if negb (Py.truthy file_path) || negb found then
    message_box "warning" "Warning" "Please select a valid text file." ;; uret tt
  else
    let '(output_dir, bitrate, audio_format) :=
      if use_same_settings_check w
      then (output_dir_input w, bitrate_combo w, format_combo w)
      else ("BatchDownloads", "320k", "mp3") in
    os_makedirs output_dir ;;
    widget "batch_download_button" "setEnabled" [Py.VBool false] ;;
    widget "batch_download_button" "setText" [Py.VStr "Downloading..."] ;;
    widget "batch_console" "clear" [] ;;
    show (Start (Batch (GuiTest.BatchDownloadThread.init (run_download_method backend)
                          file_path output_dir bitrate audio_format
                          (max_retries_spin w) (retry_delay_spin w)))).

(** [update_console], lines 671-673. *)
Definition update_console (message : string) : U unit :=
  widget "console_output" "append" [Py.VStr message].

(** The dictionary of [update_batch_console], lines 677-682. *)
Definition color_map : list (string * string) :=
  [("info", "black"); ("success", "green"); ("error", "red"); ("warning", "orange")].

(** [update_batch_console], lines 675-689. *)
Definition update_batch_console (message msg_type : string) : U unit :=
  let color := dict_get color_map msg_type "black" in
  widget "batch_console" "append"
    [Py.VStr ("<font color=" ++ String (ascii_of_nat 34) color ++ String (ascii_of_nat 34) ">"
              ++ message ++ "</font>")] ;;
  widget "batch_console" "scrollToEnd" [].

(** [update_batch_progress], lines 691-695. *)
Definition update_batch_progress (current total : Z) : U unit :=
  widget "batch_progress_bar" "setMaximum" [Py.VInt total] ;;
  widget "batch_progress_bar" "setValue" [Py.VInt current] ;;
  widget "batch_progress_label" "setText"
    [Py.VStr ("Processing " ++ str_of_int current ++ " of " ++ str_of_int total)].

(** [download_finished], lines 697-708. *)
Definition download_finished (success : bool) (message : string) : U unit :=
  widget "download_button" "setEnabled" [Py.VBool true] ;;
  widget "download_button" "setText" [Py.VStr "Start Download"] ;;
  widget "progress_bar" "setVisible" [Py.VBool false] ;;
  if success then
    widget "status_bar" "showMessage" [Py.VStr "Download completed successfully!"] ;;
    widget "console_output" "append" [Py.VStr (nl ++ "✓ Download completed!")]
  else
    widget "status_bar" "showMessage" [Py.VStr ("Download failed: " ++ message)] ;;
    widget "console_output" "append" [Py.VStr (nl ++ "✗ Download failed: " ++ message)].

(** [batch_download_finished], lines 710-726. *)
Definition batch_download_finished (success_count total_count : Z) : U unit :=
  widget "batch_download_button" "setEnabled" [Py.VBool true] ;;
  widget "batch_download_button" "setText" [Py.VStr "Start Batch Download"] ;;
  if (0 <? total_count)%Z then
    widget "batch_console" "append" [Py.VStr (nl ++ str_times "=" 50)] ;;
    widget "batch_console" "append" [Py.VStr "<b>Batch Download Complete!</b>"] ;;
    widget "batch_console" "append"
      [Py.VStr ("Successfully downloaded: " ++ str_of_int success_count
                ++ "/" ++ str_of_int total_count)] ;;
    if (success_count =? total_count)%Z then
      widget "status_bar" "showMessage" [Py.VStr "All downloads completed successfully!"]
    else
      widget "status_bar" "showMessage"
        [Py.VStr ("Completed with " ++ str_of_int (total_count - success_count) ++ " failures")]
  else
    widget "status_bar" "showMessage" [Py.VStr "Batch download completed (no URLs found)"].

(** [install_spotdl], lines 745-758. *)
Definition install_spotdl : U unit :=
  widget "console_output" "append" [Py.VStr "Installing spotdl..."] ;;
  utry_class "CalledProcessError"
    (show Pip ;;
     match check_call env with
     | Some e => uraise e
     | None =>
         message_box "information" "Success" "spotdl installed successfully!" ;;
         widget "console_output" "append" [Py.VStr "✓ spotdl installed successfully!"]
     end)
    (fun e =>
       message_box "critical" "Error" ("Failed to install spotdl: " ++ Py.exn_str e) ;;
       widget "console_output" "append"
         [Py.VStr ("✗ Failed to install spotdl: " ++ Py.exn_str e)]).

(** [check_spotdl_installation], lines 728-743. *)
Definition check_spotdl_installation : U unit :=
  utry
    (installed <- call_backend "check_spotdl" (check_spotdl backend) ;;
     if installed then
       message_box "information" "spotdl Check" "spotdl is installed and ready!" ;; uret tt
     else
       reply <- message_box "question" "spotdl Not Found"
                  "spotdl is not installed. Would you like to install it now?" ;;
       match reply with
       | Yes => install_spotdl
       | No => uret tt
       end)
    (fun e =>
       message_box "critical" "Error" ("Error checking spotdl: " ++ Py.exn_str e) ;; uret tt).

(** [show_spotdl_help], lines 760-765, and [show_program_info],
    lines 767-772. *)
Definition show_spotdl_help_slot : U unit :=
  utry (call_backend "show_spotdl_help" (show_spotdl_help backend))
       (fun e => message_box "critical" "Error" ("Error showing help: " ++ Py.exn_str e) ;;
                 uret tt).

Definition show_program_info : U unit :=
  utry (call_backend "program_info" (program_info backend))
       (fun e => message_box "critical" "Error" ("Error showing info: " ++ Py.exn_str e) ;;
                 uret tt).



(** [load_log_file], lines 837-850. *)
Definition load_log_file : U unit :=
  w <- read_form ;;
  let log_file := log_combo w in
  let log_path := path_join env "log" log_file in
  found <- path_exists log_path ;;
  if found then
    utry
      (ls <- open_lines log_path ;;
       let content := join ls in
       widget "log_viewer" "setText" [Py.VStr content])
      (fun e =>
         widget "log_viewer" "setText" [Py.VStr ("Error reading log file: " ++ Py.exn_str e)])
  else
    widget "log_viewer" "setText" [Py.VStr "Log file does not exist yet."].

(** [refresh_logs], lines 852-854. *)
Definition refresh_logs : U unit := load_log_file.


(** Signals reach the slots they are connected to (lines 618-619 and
    664-666), in the order of their emission. *)
Definition single_slot (e : effect) : U unit :=
  match e with
  | Emit name [Py.VStr message] =>
      if name =? "update_signal" then update_console message else uret tt
  | Emit name [Py.VBool success; Py.VStr message] =>
      if name =? "finished_signal" then download_finished success message else uret tt
  | _ => uret tt
  end.

Definition batch_slot (e : effect) : U unit :=
  match e with
  | Emit name [Py.VStr message; Py.VStr msg_type] =>
      if name =? "update_signal" then update_batch_console message msg_type else uret tt
  | Emit name [Py.VInt a; Py.VInt b] =>
      if name =? "progress_signal" then update_batch_progress a b
      else if name =? "finished_signal" then batch_download_finished a b
      else uret tt
  | _ => uret tt
  end.

Fixpoint deliver (slot : effect -> U unit) (t : list effect) : U unit :=
  match t with
  | [] => uret tt
  | e :: t' => slot e ;; deliver slot t'
  end.

(** A started thread runs to its end and the window handles its
    signals. *)
Definition run_thread (th : thread) : U unit :=
  fun w =>
    match th with
    | Single t => deliver single_slot (snd (exec (GuiTest.DownloadThread.run t))) w
    | Batch t =>
        deliver batch_slot
          (snd (exec (GuiTest.BatchDownloadThread.run (fs_of (disk w)) t))) w
    end.

End Methods.

(** The window before anything has happened. *)
Definition fresh (f : form) (d : string -> option file_read) : world :=
  {| inputs := f; shown := []; disk := d |}.

(** The thread a method has started, if any. *)
Fixpoint started (l : list ui) : option thread :=
  match l with
  | [] => None
  | Start th :: _ => Some th
  | _ :: l' => started l'
  end.

End SpotifyDownloaderGUI.

(** ** More readings of a trace *)

(** The emissions of [update_signal] and of [progress_signal]. *)
Definition updates (t : list effect) : list (list Py.value) :=
  flat_map (fun e => match e with
                     | Emit n args => if n =? "update_signal" then [args] else []
                     | _ => []
                     end) t.

Definition progress (t : list effect) : list (list Py.value) :=
  flat_map (fun e => match e with
                     | Emit n args => if n =? "progress_signal" then [args] else []
                     | _ => []
                     end) t.

(** An emission of [update_signal] in the form the batch console expects:
    a message and a type that is a key of [color_map]. *)
Definition known_update (args : list Py.value) : bool :=
  match args with
  | [Py.VStr _; Py.VStr msg_type] =>
      existsb (String.eqb msg_type) (map fst SpotifyDownloaderGUI.color_map)
  | _ => false
  end.

(** The calls of one URL: [k] calls in a row for the same [call]. *)
Definition call_blocks (cs : list call) (ks : list nat) : list call :=
  flat_map (fun ck => repeat (fst ck) (snd ck)) (combine cs ks).

(** ** Readings of what the window shows *)

(** The arguments of the calls [self.name.method(...)], in order. *)
Definition widget_calls (name method : string) (l : list SpotifyDownloaderGUI.ui)
    : list (list Py.value) :=
  flat_map (fun e => match e with
                     | SpotifyDownloaderGUI.Widget n m args =>
                         if (n =? name) && (m =? method) then [args] else []
                     | _ => []
                     end) l.

(** The message boxes, the calls to the downloader and the runs of pip. *)
Definition boxes (l : list SpotifyDownloaderGUI.ui) : list (string * string * string) :=
  flat_map (fun e => match e with
                     | SpotifyDownloaderGUI.MessageBox kind title text => [(kind, title, text)]
                     | _ => []
                     end) l.

Definition invoked (l : list SpotifyDownloaderGUI.ui) : list string :=
  flat_map (fun e => match e with
                     | SpotifyDownloaderGUI.Invoke method => [method]
                     | _ => []
                     end) l.

Definition pip_runs (l : list SpotifyDownloaderGUI.ui) : nat :=
  length (filter (fun e => match e with SpotifyDownloaderGUI.Pip => true | _ => false end) l).

(** What a slot of the batch tab, and of the single tab, shows for one
    effect of a thread. *)
Definition blank : SpotifyDownloaderGUI.world :=
  SpotifyDownloaderGUI.fresh SpotifyDownloaderGUI.initial_form (fun _ => None).

Definition batch_out (e : effect) : list SpotifyDownloaderGUI.ui :=
  SpotifyDownloaderGUI.shown (snd (SpotifyDownloaderGUI.batch_slot e blank)).

Definition single_out (e : effect) : list SpotifyDownloaderGUI.ui :=
  SpotifyDownloaderGUI.shown (snd (SpotifyDownloaderGUI.single_slot e blank)).


(** ** Sample surroundings *)

(** An operating system on which nothing fails, with the path separator
    of POSIX, and a user who answers yes and picks no file. *)
Definition calm : SpotifyDownloaderGUI.environment :=
  {| SpotifyDownloaderGUI.makedirs := fun _ => None;
     SpotifyDownloaderGUI.path_join := fun a b => a ++ "/" ++ b;
     SpotifyDownloaderGUI.open_for_writing := fun _ => None;
     SpotifyDownloaderGUI.check_call := None;
     SpotifyDownloaderGUI.answer := fun _ => SpotifyDownloaderGUI.Yes;
     SpotifyDownloaderGUI.chosen := fun _ => EmptyString |}.

(** A downloader of which every method works. *)
Definition working (dl : Downloader) : SpotifyDownloaderGUI.Backend :=
  {| SpotifyDownloaderGUI.run_download_method := dl;
     SpotifyDownloaderGUI.check_spotdl := SpotifyDownloaderGUI.Gives true;
     SpotifyDownloaderGUI.show_spotdl_help := SpotifyDownloaderGUI.Gives tt;
     SpotifyDownloaderGUI.program_info := SpotifyDownloaderGUI.Gives tt;
     SpotifyDownloaderGUI.download_user_playlist := SpotifyDownloaderGUI.Gives true;
     SpotifyDownloaderGUI.download_user_liked_songs := SpotifyDownloaderGUI.Gives true;
     SpotifyDownloaderGUI.download_user_saved_albums := SpotifyDownloaderGUI.Gives true |}.

(** A disk that holds one file. *)
Definition one_file (path : string) (f : file_read) : string -> option file_read :=
  fun p => if p =? path then Some f else None.

(** The form with a URL typed in, and with a batch file chosen. *)
Definition form_with_url (url : string) (search : bool) : SpotifyDownloaderGUI.form :=
  {| SpotifyDownloaderGUI.url_input := url;
     SpotifyDownloaderGUI.search_checkbox := search;
     SpotifyDownloaderGUI.format_combo := "mp3";
     SpotifyDownloaderGUI.bitrate_combo := "320k";
     SpotifyDownloaderGUI.output_dir_input := "Downloads";
     SpotifyDownloaderGUI.batch_file_input := EmptyString;
     SpotifyDownloaderGUI.use_same_settings_check := true;
     SpotifyDownloaderGUI.max_retries_spin := 5;
     SpotifyDownloaderGUI.retry_delay_spin := 20;
     SpotifyDownloaderGUI.log_combo := "success.log" |}.

Definition form_with_batch_file (path : string) : SpotifyDownloaderGUI.form :=
  {| SpotifyDownloaderGUI.url_input := EmptyString;
     SpotifyDownloaderGUI.search_checkbox := false;
     SpotifyDownloaderGUI.format_combo := "mp3";
     SpotifyDownloaderGUI.bitrate_combo := "320k";
     SpotifyDownloaderGUI.output_dir_input := "Downloads";
     SpotifyDownloaderGUI.batch_file_input := path;
     SpotifyDownloaderGUI.use_same_settings_check := true;
     SpotifyDownloaderGUI.max_retries_spin := 5;
     SpotifyDownloaderGUI.retry_delay_spin := 20;
     SpotifyDownloaderGUI.log_combo := "success.log" |}.

(** A window with a batch file of three lines on the disk, and the
    thread the batch tab would start for it. *)
Definition sample_lines : list string :=
  [playlist_url ++ nl; "# later" ++ nl; track_url ++ nl].

Definition sample_window : SpotifyDownloaderGUI.world :=
  SpotifyDownloaderGUI.fresh (form_with_batch_file "urls.txt")
    (one_file "urls.txt" (Lines sample_lines)).

Definition sample_batch (dl : Downloader) : GuiTest.BatchDownloadThread.t :=
  GuiTest.BatchDownloadThread.init dl "urls.txt" "Downloads" "320k" "mp3" 5 20.

(** ** The call of a single download *)

(** The call [DownloadThread.run] of gui_test.py makes for the download
    types "track_album", "playlist" and "search". *)
Definition single_call (self : GuiTest.DownloadThread.t) : call :=
  let download_type := GuiTest.DownloadThread.download_type self in
  let url := GuiTest.DownloadThread.url self in
  {| call_url := url;
     call_template :=
       Template (GuiTest.DownloadThread.output_dir self)
         (if download_type =? "playlist" then "{playlist}/{title}.{output-ext}"
          else if (download_type =? "track_album") && Py.contains "album" (Py.lower url)
               then "{artist}/{album}/{title}.{output-ext}"
               else "{artist} - {title}.{output-ext}");
     call_extra :=
       if download_type =? "playlist"
       then PassedList ["--playlist-numbering"; "--playlist-retain-track-cover"]
       else NotPassed |}.

(** An answer for which the result check of [DownloadThread.run] has no
    branch: a [returncode] other than 0, 100 and 101. *)
Definition unlisted (b : behaviour) : bool :=
  match b with
  | Returns (WithReturncode rc) =>
      negb (Py.eq_int rc 100 || Py.eq_int rc 101 || Py.eq_int rc 0)
  | _ => false
  end.

(** ** Job lines gui_downloader.py cannot process *)

(** A URL for which the batch thread of gui_downloader.py takes its
    playlist branch: "playlist" in it and no "album". *)
Definition playlist_only (url : string) : bool :=
  negb (Py.contains "album" (Py.lower url)) && Py.contains "playlist" (Py.lower url).

(** The URLs before the first such one. *)
Fixpoint before_playlist (urls : list string) : list string :=
  match urls with
  | [] => []
  | url :: rest => if playlist_only url then [] else url :: before_playlist rest
  end.

(** What the retry loop may add to a trace: no progress event, no
    terminal event, and update events of a known type only. *)
Definition quiet (d : list effect) : Prop :=
  progress d = [] /\ summaries d = [] /\ forallb known_update (updates d) = true.

(** A method that only shows things: it returns normally, leaves the
    inputs and the disk alone, and adds [l] to what is shown. *)
Definition extend (w : SpotifyDownloaderGUI.world) (l : list SpotifyDownloaderGUI.ui)
    : SpotifyDownloaderGUI.world :=
  {| SpotifyDownloaderGUI.inputs := SpotifyDownloaderGUI.inputs w;
     SpotifyDownloaderGUI.shown := (SpotifyDownloaderGUI.shown w ++ l)%list;
     SpotifyDownloaderGUI.disk := SpotifyDownloaderGUI.disk w |}.

Definition adds (m : SpotifyDownloaderGUI.U unit) (l : list SpotifyDownloaderGUI.ui)
    : Prop :=
  forall w, m w = (Normal tt, extend w l).

(** A batch thread of gui_downloader.py and a file with a playlist line. *)
Definition sample_downloader_thread : GuiDownloader.BatchDownloadThread.t :=
  GuiDownloader.BatchDownloadThread.init (always (returns 0))
    "urls.txt" "Downloads" "320k" "mp3" 2 1.

Definition sample_playlist_lines : list string :=
  [track_url ++ nl; playlist_url ++ nl; track_url ++ nl].


(** An operating system on which python cannot be started. *)
Definition no_python : SpotifyDownloaderGUI.environment :=
  {| SpotifyDownloaderGUI.makedirs := fun _ => None;
     SpotifyDownloaderGUI.path_join := fun a b => a ++ "/" ++ b;
     SpotifyDownloaderGUI.open_for_writing := fun _ => None;
     SpotifyDownloaderGUI.check_call := Some (file_not_found "python");
     SpotifyDownloaderGUI.answer := fun _ => SpotifyDownloaderGUI.Yes;
     SpotifyDownloaderGUI.chosen := fun _ => EmptyString |}.

(** An answer that ends the retry loop of gui_test.py: a success or a
    classified failure. *)
Definition decided (b : behaviour) : bool :=
  match attempt_result b with UnknownFailure => false | _ => true end.

(** The number of attempts a job takes when every attempt gets the
    answer [b]. *)
Definition tries (max_retries : nat) (b : behaviour) : nat :=
  if decided b then 1 else max_retries.

(** * Properties *)

Example strip_line : Py.strip "  # todo  " = "# todo".
Proof. reflexivity. Qed.

Example lower_url : Py.lower "HTTPS://X/PlayList/1" = "https://x/playlist/1".
Proof. reflexivity. Qed.

Example str_of_12 : Py.str_of_nat 12 = "12" /\ Py.str_of_nat 0 = "0".
Proof. split; reflexivity. Qed.

(** A batch file with a playlist, a comment, a blank line and an album,
    and a downloader that always succeeds: gui_test.py reports two
    successes out of two, and calls the downloader once per URL with the
    template of its kind. *)
Example gui_test_two_jobs :
  let lines := [playlist_url ++ nl; "# comment" ++ nl; nl;
                "https://open.spotify.com/album/4aawyAB9vmqN3uQ7FjRGTy"] in
  let self := GuiTest.BatchDownloadThread.init (always (returns 0))
                "urls.txt" "out" "320k" "mp3" 5 20 in
  let r := exec (GuiTest.BatchDownloadThread.run (file_with lines) self) in
  fst r = Normal tt
  /\ summaries (snd r) = [[Py.VInt 2; Py.VInt 2]]
  /\ map (fun cb => (rel (call_template (fst cb)), call_extra (fst cb))) (calls (snd r))
     = [("{playlist}/{title}.{output-ext}",
         PassedList ["--playlist-numbering"; "--playlist-retain-track-cover"]);
        ("{artist}/{album}/{title}.{output-ext}", PassedNone)].
Proof. vm_compute. repeat split. Qed.

(** ** Traces *)

Lemma summaries_app t u : summaries (t ++ u) = (summaries t ++ summaries u)%list.
Proof. apply flat_map_app. Qed.

Lemma calls_app t u : calls (t ++ u) = (calls t ++ calls u)%list.
Proof. apply flat_map_app. Qed.

Lemma sleeps_app t u : sleeps (t ++ u) = (sleeps t ++ sleeps u)%list.
Proof. apply flat_map_app. Qed.

Lemma calls_made_calls t : calls_made t = length (calls t).
Proof.
  unfold calls_made.
  induction t as [|e t IH]; [reflexivity|].
  destruct e; simpl; auto.
Qed.

Lemma calls_made_app t u : calls_made (t ++ u) = calls_made t + calls_made u.
Proof. now rewrite !calls_made_calls, calls_app, length_app. Qed.

Lemma count_success_app cs ds :
  count_success (cs ++ ds) = count_success cs + count_success ds.
Proof. unfold count_success. now rewrite filter_app, length_app. Qed.

Lemma count_success_single c b :
  count_success [(c, b)] = match attempt_result b with Success => 1 | _ => 0 end.
Proof.
  unfold count_success, is_success. cbn [filter snd].
  destruct (attempt_result b); reflexivity.
Qed.

(** ** The retry controller of the specification *)

Lemma runWithRetries_used_bounds results remaining : forall attempt,
  1 <= attempt ->
  attempt - 1 <= attemptsUsed (fst (runWithRetries results attempt remaining))
  /\ attemptsUsed (fst (runWithRetries results attempt remaining)) <= attempt + remaining - 1
  /\ (0 < remaining -> attempt <= attemptsUsed (fst (runWithRetries results attempt remaining))).
Proof.
  induction remaining as [|r IH]; intros attempt Ha.
  - cbn. lia.
  - cbn [runWithRetries].
    destruct (results attempt); cbn [fst attemptsUsed]; try lia.
    destruct r as [|r']; [cbn; lia|].
    specialize (IH (S attempt) ltac:(lia)).
    destruct (runWithRetries results (S attempt) (S r')) as [o p].
    cbn [fst attemptsUsed] in *. lia.
Qed.

(** A success or a classified failure at the first attempt ends the job
    there: one attempt used, no pause. *)
Lemma runWithRetries_first_decides results maxRetries :
  0 < maxRetries ->
  results 1 <> UnknownFailure ->
  attemptsUsed (fst (runWithRetries results 1 maxRetries)) = 1
  /\ snd (runWithRetries results 1 maxRetries) = 0
  /\ succeeded (fst (runWithRetries results 1 maxRetries))
     = match results 1 with Success => true | _ => false end.
Proof.
  intros Hm Hr. destruct maxRetries as [|m]; [lia|]. simpl.
  destruct (results 1); simpl; auto. congruence.
Qed.

(** Between two attempts there is exactly one pause. *)
Lemma runWithRetries_pauses results remaining : forall attempt,
  1 <= attempt -> 0 < remaining ->
  snd (runWithRetries results attempt remaining) + attempt
  = attemptsUsed (fst (runWithRetries results attempt remaining)).
Proof.
  induction remaining as [|r IH]; intros attempt Ha Hr; [lia|].
  cbn [runWithRetries].
  destruct (results attempt); cbn [fst snd attemptsUsed]; try lia.
  destruct r as [|r']; [cbn; lia|].
  specialize (IH (S attempt) ltac:(lia) ltac:(lia)).
  destruct (runWithRetries results (S attempt) (S r')) as [o p].
  cbn [fst snd attemptsUsed] in *. lia.
Qed.

(** ** Steps of the monad *)

Lemma bind_normal {A B} (m : M A) (k : A -> M B) s a s' :
  m s = (Normal a, s') -> bind m k s = k a s'.
Proof. intros H. unfold bind. now rewrite H. Qed.

Lemma bind_raised {A B} (m : M A) (k : A -> M B) s e s' :
  m s = (Raised e, s') -> bind m k s = (Raised e, s').
Proof. intros H. unfold bind. now rewrite H. Qed.

(** An emission whose arguments fit the signature of the signal is
    delivered. *)
Lemma emit_ok sg args s :
  Qt.check sg args = None ->
  emit sg args s
  = (Normal tt, {| trace := trace s ++ [Emit (Qt.sig_name sg) args]; successes := successes s |}).
Proof. intros H. unfold emit. now rewrite H. Qed.

Ltac run_emit := erewrite bind_normal by (apply emit_ok; reflexivity).

(** Closes a goal about one step of a thread once every test of the step
    has been decided: the step computes to a final state, and what it
    added to the trace is read off. *)
Ltac step_done :=
  eexists _, _, _; split; [reflexivity|]; simpl; rewrite <- ?app_assoc;
  split; [reflexivity|]; simpl;
  repeat match goal with
         | |- _ /\ _ => split
         | |- _ -> _ => intro
         end;
  try reflexivity; try lia.

(** ** gui_test.py: one attempt of the retry loop *)

Section GuiTestRetry.

Import GuiTest.BatchDownloadThread.

Variable self : t.
Variables (url : string) (tpl : template) (extra : extra_args).

Let c := {| call_url := url; call_template := tpl; call_extra := extra |}.

(** One attempt makes one call and emits no terminal event; what follows
    the call is decided by the class of the downloader's answer. *)
Lemma gui_test_attempt_body (a : nat) (s : state) :
  let b := downloader self (calls_made (trace s)) c in
  exists f d s',
    attempt_body self url tpl extra a s = (Normal f, s')
    /\ trace s' = (trace s ++ d)%list
    /\ calls d = [(c, b)]
    /\ summaries d = []
    /\ match attempt_result b with
       | Success => f = Break /\ sleeps d = [] /\ successes s' = S (successes s)
       | MetadataError | LookupError =>
           f = Break /\ sleeps d = [] /\ successes s' = successes s
       | UnknownFailure =>
           successes s' = successes s
           /\ (a < max_retries self -> f = Next /\ sleeps d = [retry_delay self])
           /\ (a = max_retries self -> sleeps d = [])
       end.
Proof.
  intros b.
  unfold attempt_body, bind, try_except, emit, run_download, sleep, perform,
    incr_success, ret; simpl.
  fold c. rewrite calls_made_app. simpl. rewrite Nat.add_0_r. fold b.
  destruct b as [[rc|]|e]; simpl.
  - destruct (Py.eq_int rc 0); simpl; [step_done|].
    destruct (Py.eq_int rc 100); simpl; [step_done|].
    destruct (Py.eq_int rc 101); simpl; [step_done|].
    destruct (Nat.ltb_spec a (max_retries self)); step_done.
  - destruct (Nat.ltb_spec a (max_retries self)); step_done.
  - destruct (Nat.eqb_spec a (max_retries self)); step_done.
Qed.

(** The retry loop from attempt [attempt] on refines the retry controller
    of the specification.  [n0] is the number of calls made before the
    job started, so that attempt [a] of the job is call [n0 + a - 1]. *)
Variable n0 : nat.

Let results (a : nat) : AttemptResult :=
  attempt_result (downloader self (n0 + a - 1) c).

Lemma gui_test_retry_from : forall remaining attempt s,
  1 <= attempt ->
  attempt + remaining = S (max_retries self) ->
  calls_made (trace s) + 1 = n0 + attempt ->
  exists d s',
    for_each (seq attempt remaining) (attempt_body self url tpl extra) s = (Normal tt, s')
    /\ trace s' = (trace s ++ d)%list
    /\ summaries d = []
    /\ calls d = map (fun a => (c, downloader self (n0 + a - 1) c))
                   (seq attempt
                      (S (attemptsUsed (fst (runWithRetries results attempt remaining)))
                       - attempt))
    /\ sleeps d = repeat (retry_delay self) (snd (runWithRetries results attempt remaining))
    /\ successes s' = successes s + count_success (calls d)
    /\ count_success (calls d)
       = (if succeeded (fst (runWithRetries results attempt remaining)) then 1 else 0).
Proof.
  induction remaining as [|r IH]; intros attempt s Ha Hsum Hn.
  - exists [], s.
    cbn [for_each runWithRetries fst snd attemptsUsed succeeded repeat].
    rewrite app_nil_r.
    replace (S (attempt - 1) - attempt) with 0 by lia.
    repeat split; auto.
  - destruct (gui_test_attempt_body attempt s) as (f & d1 & s1 & Hrun & Ht & Hc & Hs & Hcase).
    replace (calls_made (trace s)) with (n0 + attempt - 1) in Hc, Hcase by lia.
    assert (Hone : S attempt - attempt = 1) by lia.
    assert (Hcs : count_success (calls d1)
                  = match results attempt with Success => 1 | _ => 0 end)
      by (rewrite Hc; apply count_success_single).
    cbn [seq for_each]. unfold bind at 1. rewrite Hrun.
    cbn [runWithRetries]. fold (results attempt) in Hcase.
    destruct (results attempt) eqn:Hres.
    + destruct Hcase as (-> & Hsl & Hsucc).
      exists d1, s1. cbn [fst snd attemptsUsed succeeded repeat].
      rewrite Hone. cbn [seq map].
      repeat split; auto; lia.
    + destruct Hcase as (-> & Hsl & Hsucc).
      exists d1, s1. cbn [fst snd attemptsUsed succeeded repeat].
      rewrite Hone. cbn [seq map].
      repeat split; auto; lia.
    + destruct Hcase as (-> & Hsl & Hsucc).
      exists d1, s1. cbn [fst snd attemptsUsed succeeded repeat].
      rewrite Hone. cbn [seq map].
      repeat split; auto; lia.
    + destruct Hcase as (Hsucc & Hlt & Heq).
      destruct r as [|r'].
      * exists d1, s1. cbn [fst snd attemptsUsed succeeded repeat].
        rewrite Hone. cbn [seq map].
        rewrite (Heq ltac:(lia)).
        repeat split; auto; try lia.
        destruct f; reflexivity.
      * destruct (Hlt ltac:(lia)) as (-> & Hsl).
        destruct (IH (S attempt) s1 ltac:(lia) ltac:(lia))
          as (d2 & s2 & Hrun2 & Ht2 & Hs2 & Hc2 & Hsl2 & Hsucc2 & Hcs2).
        { rewrite Ht, calls_made_app, (calls_made_calls d1), Hc. simpl. lia. }
        pose proof (runWithRetries_used_bounds results (S r') (S attempt) ltac:(lia))
          as (_ & _ & Hge).
        specialize (Hge ltac:(lia)).
        destruct (runWithRetries results (S attempt) (S r')) as [o p] eqn:Hrw.
        cbn [fst snd] in *.
        exists (d1 ++ d2)%list, s2.
        rewrite Hrun2, Ht2, Ht, summaries_app, calls_app, sleeps_app, count_success_app,
          Hs, Hs2, Hsl, Hsl2, Hcs, Hcs2.
        rewrite Hc at 1. rewrite Hc2 at 1.
        replace (S (attemptsUsed o) - attempt) with (S (S (attemptsUsed o) - S attempt)) by lia.
        cbn [seq map repeat app].
        rewrite <- app_assoc.
        repeat split; auto; lia.
Qed.

End GuiTestRetry.

(** The retry loop of one URL, started after [calls_made (trace s)]
    calls, is the retry controller of the specification run on the
    answers the downloader gives from there on: it returns normally, it
    made [attemptsUsed] calls, all for this URL, paused [retry_delay]
    seconds between two of them, and counted one success or none. *)
Lemma gui_test_retry_loop_refines (self : GuiTest.BatchDownloadThread.t)
    (url : string) (tpl : template) (extra : extra_args) (s : state) :
  let c := {| call_url := url; call_template := tpl; call_extra := extra |} in
  let answer a := GuiTest.BatchDownloadThread.downloader self (calls_made (trace s) + a - 1) c in
  let job := runWithRetries (fun a => attempt_result (answer a)) 1
               (GuiTest.BatchDownloadThread.max_retries self) in
  exists d s',
    GuiTest.BatchDownloadThread.retry_loop self url tpl extra s = (Normal tt, s')
    /\ trace s' = (trace s ++ d)%list
    /\ summaries d = []
    /\ calls d = map (fun a => (c, answer a)) (seq 1 (attemptsUsed (fst job)))
    /\ sleeps d = repeat (GuiTest.BatchDownloadThread.retry_delay self) (snd job)
    /\ successes s' = successes s + count_success (calls d)
    /\ count_success (calls d) = (if succeeded (fst job) then 1 else 0).
Proof.
  intros c answer job.
  destruct (gui_test_retry_from self url tpl extra (calls_made (trace s))
              (GuiTest.BatchDownloadThread.max_retries self) 1 s)
    as (d & s' & Hrun & Ht & Hs & Hc & Hsl & Hsucc & Hcs); try lia.
  rewrite Nat.sub_succ, Nat.sub_0_r in Hc.
  exists d, s'. repeat split; assumption.
Qed.

(** ** Reading the batch file *)

Lemma lstrip_head s : forall c r, Py.lstrip s = String c r -> Py.isspace c = false.
Proof.
  induction s as [|a s IH]; intros c r H; simpl in H; [discriminate|].
  destruct (Py.isspace a) eqn:Ha.
  - eauto.
  - now inversion H; subst.
Qed.

Lemma rstrip_keeps_head c r :
  Py.isspace c = false -> exists r', Py.rstrip (String c r) = String c r'.
Proof.
  intros Hc. simpl. destruct (Py.rstrip r); rewrite ?Hc; eauto.
Qed.

(** The filter of the list comprehension keeps exactly the job lines. *)
Lemma read_urls_filter line :
  Py.truthy (Py.strip line) && negb (Py.startswith (Py.strip line) "#") = is_job_line line.
Proof.
  unfold Py.strip, is_job_line.
  destruct (Py.lstrip line) as [|c r] eqn:E; [reflexivity|].
  destruct (rstrip_keeps_head c r (lstrip_head _ _ _ E)) as [r' ->].
  cbn [Py.truthy Py.startswith andb].
  now rewrite andb_true_r.
Qed.

Lemma read_urls_length lines : length (read_urls lines) = count_job_lines lines.
Proof.
  unfold read_urls, count_job_lines. rewrite length_map.
  f_equal. apply filter_ext. intros line. apply read_urls_filter.
Qed.

Lemma read_urls_no_jobs lines :
  Forall (fun line => is_job_line line = false) lines -> read_urls lines = [].
Proof.
  intros H. unfold read_urls.
  rewrite (filter_ext _ is_job_line read_urls_filter).
  induction H as [|line lines Hl _ IH]; [reflexivity|].
  simpl. now rewrite Hl.
Qed.

(** ** gui_test.py: the loop over the URLs *)

Section GuiTestBatch.

Import GuiTest.BatchDownloadThread.

Variable self : t.

Lemma gui_test_process_url (total i : nat) (url : string) (s : state) :
  exists d s',
    process_url self total (i, url) s = (Normal Next, s')
    /\ trace s' = (trace s ++ d)%list
    /\ summaries d = []
    /\ Forall (fun secs => secs = retry_delay self) (sleeps d)
    /\ Forall (fun cb => fst cb = gui_test_call self url) (calls d)
    /\ length (calls d) <= max_retries self
    /\ (1 <= max_retries self -> 1 <= length (calls d))
    /\ successes s' = successes s + count_success (calls d)
    /\ count_success (calls d) <= 1.
Proof.
  unfold process_url, gui_test_call.
  destruct (select_template self url) as [tpl extra]. cbn [fst snd].
  do 2 run_emit.
  match goal with |- context [bind (retry_loop self url tpl extra) _ ?s1] =>
    destruct (gui_test_retry_loop_refines self url tpl extra s1)
      as (d & s' & Hrun & Ht & Hs & Hc & Hsl & Hsucc & Hcs)
  end.
  erewrite bind_normal by exact Hrun.
  cbn [ret trace successes] in *.
  match type of Hsl with context [runWithRetries ?r 1 ?m] =>
    pose proof (runWithRetries_used_bounds r m 1 (le_n 1)) as (_ & Hub & Hlb);
    set (job := runWithRetries r 1 m) in *
  end.
  eexists (_ :: _ :: d), s'.
  split; [reflexivity|].
  split; [now rewrite Ht, <- !app_assoc|].
  cbn [summaries calls sleeps flat_map Qt.sig_name progress_signal update_signal
       String.eqb Ascii.eqb Bool.eqb app].
  fold (summaries d) (calls d) (sleeps d).
  repeat split.
  - exact Hs.
  - rewrite Hsl. apply Forall_forall. intros x Hx. now apply repeat_spec in Hx.
  - rewrite Hc. apply Forall_forall. intros x Hx.
    apply in_map_iff in Hx as (a & <- & _). reflexivity.
  - rewrite Hc, length_map, length_seq. lia.
  - intros Hmax. rewrite Hc, length_map, length_seq. lia.
  - exact Hsucc.
  - rewrite Hcs. destruct (succeeded (fst job)); lia.
Qed.

(** The loop over the URLs returns normally; it emits no terminal
    event, pauses only for [retry_delay] seconds, calls the downloader
    for URLs of the list only and, when [max_retries] is positive, for
    every one of them; each URL counts at most one success. *)
Lemma gui_test_url_loop (total : nat) : forall urls i s,
  exists d s',
    for_each (combine (seq i (length urls)) urls) (process_url self total) s = (Normal tt, s')
    /\ trace s' = (trace s ++ d)%list
    /\ summaries d = []
    /\ Forall (fun secs => secs = retry_delay self) (sleeps d)
    /\ Forall (fun cb => exists url, In url urls /\ fst cb = gui_test_call self url) (calls d)
    /\ length (calls d) <= length urls * max_retries self
    /\ (1 <= max_retries self ->
        Forall (fun url => exists b, In (gui_test_call self url, b) (calls d)) urls)
    /\ successes s' = successes s + count_success (calls d)
    /\ count_success (calls d) <= length urls.
Proof.
  induction urls as [|url urls IH]; intros i s.
  - exists [], s. cbn. rewrite app_nil_r. repeat split; auto.
  - cbn [length seq combine for_each].
    destruct (gui_test_process_url total i url s)
      as (d1 & s1 & Hrun1 & Ht1 & Hs1 & Hsl1 & Hc1 & Hlen1 & Hpos1 & Hsucc1 & Hcs1).
    destruct (IH (S i) s1)
      as (d2 & s2 & Hrun2 & Ht2 & Hs2 & Hsl2 & Hc2 & Hlen2 & Hpos2 & Hsucc2 & Hcs2).
    erewrite bind_normal by exact Hrun1.
    exists (d1 ++ d2)%list, s2.
    rewrite summaries_app, sleeps_app, calls_app, count_success_app, length_app.
    repeat split.
    + exact Hrun2.
    + now rewrite Ht2, Ht1, app_assoc.
    + now rewrite Hs1, Hs2.
    + apply Forall_app. now split.
    + apply Forall_app. split.
      * eapply Forall_impl; [|exact Hc1]. intros cb Hcb. exists url. split; [now left|exact Hcb].
      * eapply Forall_impl; [|exact Hc2]. intros cb (u & Hu & Hcb). exists u. split; [now right|exact Hcb].
    + cbn [Nat.mul]. lia.
    + intros Hmax. constructor.
      * specialize (Hpos1 Hmax).
        destruct (calls d1) as [|[c b] cs] eqn:E; [cbn in Hpos1; lia|].
        apply Forall_inv in Hc1. cbn in Hc1. subst c.
        exists b. apply in_or_app. left. now left.
      * eapply Forall_impl; [|exact (Hpos2 Hmax)].
        intros u (b & Hb). exists b. apply in_or_app. now right.
    + lia.
    + lia.
Qed.

End GuiTestBatch.

(** ** gui_test.py: the batch run *)

Section GuiTestRun.

Import GuiTest.BatchDownloadThread.

Variable fs : string -> file_read.
Variable self : t.

(** A file that cannot be read: an error message, the summary [(0, 0)],
    and nothing else. *)
Lemma gui_test_run_unreadable (e : Py.exn) :
  fs (filepath self) = ReadError e ->
  exec (run fs self)
  = (Normal tt,
     [Configure (bitrate self) (audio_format self) (output_dir self);
      Emit "update_signal" [Py.VStr ("Error reading file: " ++ Py.exn_str e); Py.VStr "error"];
      Emit "finished_signal" [Py.VInt 0; Py.VInt 0]]).
Proof.
  intros Hfs. unfold exec, run, read_lines. rewrite Hfs. reflexivity.
Qed.

(** A readable file: the run returns normally and its trace is the
    configuration of the downloader, the effects [d] of the jobs, and one
    terminal event that carries the number of successful calls and the
    number of job lines. *)
Lemma gui_test_run_readable (lines : list string) :
  fs (filepath self) = Lines lines ->
  exists d,
    exec (run fs self)
    = (Normal tt,
       Configure (bitrate self) (audio_format self) (output_dir self)
       :: d ++ [Emit "finished_signal"
                  [Py.VInt (Z.of_nat (count_success (calls d)));
                   Py.VInt (Z.of_nat (count_job_lines lines))]])
    /\ summaries d = []
    /\ Forall (fun secs => secs = retry_delay self) (sleeps d)
    /\ Forall (fun cb => exists url, In url (read_urls lines) /\ fst cb = gui_test_call self url)
         (calls d)
    /\ length (calls d) <= count_job_lines lines * max_retries self
    /\ (1 <= max_retries self ->
        Forall (fun url => exists b, In (gui_test_call self url, b) (calls d)) (read_urls lines))
    /\ count_success (calls d) <= count_job_lines lines.
Proof.
  intros Hfs. rewrite <- read_urls_length.
  unfold exec, run, read_lines. rewrite Hfs.
  erewrite bind_normal by reflexivity.
  erewrite bind_normal by reflexivity.
  destruct (read_urls lines) as [|url urls] eqn:Hurls.
  - exists [Emit "update_signal" [Py.VStr "No URLs found in file"; Py.VStr "warning"]].
    split; [reflexivity|]. cbn. repeat split; auto.
  - rewrite <- Hurls.
    erewrite bind_normal by reflexivity.
    unfold Py.enumerate1.
    match goal with |- context [bind (for_each _ _) _ ?s1] =>
      destruct (gui_test_url_loop self (length (read_urls lines)) (read_urls lines) 1 s1)
        as (d & s' & Hrun & Ht & Hs & Hsl & Hc & Hlen & Hpos & Hsucc & Hcs)
    end.
    erewrite bind_normal by exact Hrun.
    cbn [trace successes initial app perform set_success] in Ht, Hsucc.
    exists d.
    erewrite bind_normal by reflexivity.
    unfold emit. cbn [Qt.check finished_signal Qt.sig_types Qt.sig_name length Nat.eqb negb
                      Qt.first_mismatch Qt.accepts perform trace successes].
    rewrite Ht, Hsucc. cbn [Nat.add app].
    repeat split; assumption.
Qed.

End GuiTestRun.

(** ** gui_test.py: what the claims say of the retry loop *)

Section GuiTestClaims.

Import GuiTest.BatchDownloadThread.

Variable self : t.
Variables (url : string) (tpl : template) (extra : extra_args).

Let c := {| call_url := url; call_template := tpl; call_extra := extra |}.

(** The loop makes at most [max_retries] calls and every pause lasts
    [retry_delay] seconds, one pause between two calls. *)
Lemma gui_test_retry_loop_bounded (s : state) :
  exists d s',
    retry_loop self url tpl extra s = (Normal tt, s')
    /\ trace s' = (trace s ++ d)%list
    /\ length (calls d) <= max_retries self
    /\ sleeps d = repeat (retry_delay self) (length (calls d) - 1).
Proof.
  destruct (gui_test_retry_loop_refines self url tpl extra s)
    as (d & s' & Hrun & Ht & _ & Hc & Hsl & _).
  exists d, s'. rewrite Hc, length_map, length_seq, Hsl.
  match goal with |- context [runWithRetries ?r 1 ?m] =>
    pose proof (runWithRetries_used_bounds r m 1 (le_n 1)) as (_ & Hub & _);
    pose proof (runWithRetries_pauses r m 1 (le_n 1)) as Hp;
    set (job := runWithRetries r 1 m) in *
  end.
  repeat split; auto; [lia|].
  destruct (max_retries self) as [|m] eqn:Hm.
  - reflexivity.
  - f_equal. specialize (Hp ltac:(lia)). lia.
Qed.

(** A first answer that is a success or a classified failure ends the
    loop: one call, no pause; the success counter moves by one for a
    success and not at all for a classified failure. *)
Lemma gui_test_first_attempt_decides (s : state) :
  let b := downloader self (calls_made (trace s)) c in
  1 <= max_retries self ->
  attempt_result b <> UnknownFailure ->
  exists d s',
    retry_loop self url tpl extra s = (Normal tt, s')
    /\ trace s' = (trace s ++ d)%list
    /\ calls d = [(c, b)]
    /\ sleeps d = []
    /\ successes s' = successes s
                      + match attempt_result b with Success => 1 | _ => 0 end.
Proof.
  intros b Hmax Hb.
  destruct (gui_test_retry_loop_refines self url tpl extra s)
    as (d & s' & Hrun & Ht & _ & Hc & Hsl & Hsucc & Hcs).
  fold c in Hc, Hsl, Hcs.
  match type of Hsl with context [runWithRetries ?r 1 ?m] =>
    destruct (runWithRetries_first_decides r m) as (Hused & Hp & Hok);
    [lia | cbn beta; now replace (calls_made (trace s) + 1 - 1) with (calls_made (trace s)) by lia |];
    rewrite Hused in Hc; rewrite Hp in Hsl; rewrite Hok in Hcs
  end.
  cbn [seq map repeat] in Hc, Hsl.
  replace (calls_made (trace s) + 1 - 1) with (calls_made (trace s)) in Hc, Hcs by lia.
  fold b in Hc, Hcs.
  exists d, s'. rewrite Hsucc, Hcs.
  repeat split; auto.
  destruct (attempt_result b); reflexivity.
Qed.

(** Two unknown failures, then a success, with five attempts allowed:
    three calls, two pauses of [retry_delay] seconds, one success. *)
Lemma gui_test_third_attempt_succeeds (s : state) :
  let answer a := downloader self (calls_made (trace s) + a - 1) c in
  max_retries self = 5 ->
  attempt_result (answer 1) = UnknownFailure ->
  attempt_result (answer 2) = UnknownFailure ->
  attempt_result (answer 3) = Success ->
  exists d s',
    retry_loop self url tpl extra s = (Normal tt, s')
    /\ trace s' = (trace s ++ d)%list
    /\ calls d = [(c, answer 1); (c, answer 2); (c, answer 3)]
    /\ sleeps d = [retry_delay self; retry_delay self]
    /\ successes s' = S (successes s).
Proof.
  intros answer Hmax H1 H2 H3.
  destruct (gui_test_retry_loop_refines self url tpl extra s)
    as (d & s' & Hrun & Ht & _ & Hc & Hsl & Hsucc & Hcs).
  unfold answer, c in *. clear answer.
  match type of Hsl with context [runWithRetries ?r 1 ?m] =>
    assert (Hjob : runWithRetries r 1 m = ({| succeeded := true; attemptsUsed := 3 |}, 2))
      by (rewrite Hmax; cbn [runWithRetries]; now rewrite H1, H2, H3)
  end.
  rewrite Hjob in Hc, Hsl, Hcs.
  cbn [fst snd attemptsUsed succeeded seq map repeat] in Hc, Hsl, Hcs.
  exists d, s'. rewrite Hsucc, Hcs. repeat split; auto. lia.
Qed.

End GuiTestClaims.

(** ** gui_test.py: the choice of the template *)

(** A URL with "playlist" in it takes the playlist route, whether or not
    it has "album" in it too. *)
Lemma gui_test_playlist_first (self : GuiTest.BatchDownloadThread.t) (url : string) :
  Py.contains "playlist" (Py.lower url) = true ->
  GuiTest.BatchDownloadThread.select_template self url
  = (Template (GuiTest.BatchDownloadThread.output_dir self) "{playlist}/{title}.{output-ext}",
     PassedList ["--playlist-numbering"; "--playlist-retain-track-cover"]).
Proof.
  intros H. unfold GuiTest.BatchDownloadThread.select_template. now rewrite H.
Qed.

(** A URL with neither "playlist" nor "album" in it takes the track
    route. *)
Lemma gui_test_track_otherwise (self : GuiTest.BatchDownloadThread.t) (url : string) :
  Py.contains "playlist" (Py.lower url) = false ->
  Py.contains "album" (Py.lower url) = false ->
  GuiTest.BatchDownloadThread.select_template self url
  = (Template (GuiTest.BatchDownloadThread.output_dir self) "{artist} - {title}.{output-ext}",
     PassedNone).
Proof.
  intros H1 H2. unfold GuiTest.BatchDownloadThread.select_template. now rewrite H1, H2.
Qed.

(** ** gui_test.py: the single download *)

(** Decides a single download once the call [c0] it makes is known: by
    cases on the answer of the downloader, the run is computed. *)
Ltac single_call c0 :=
  exists c0;
  unfold bind, run_download, calls_made, GuiTest.DownloadThread.check_result; simpl;
  match goal with
  | |- context [?dl 0 c0] =>
      destruct (dl 0 c0) as [[rc|]|e]; simpl;
      [ destruct (Py.eq_int rc 100); simpl;
        [ | destruct (Py.eq_int rc 101); simpl; [ | destruct (Py.eq_int rc 0); simpl ] ]
      | | ];
      eexists; repeat split; reflexivity
  end.


(** For the three download types the window starts the thread with, the
    thread returns normally after one call.  It emits one terminal event,
    except when the result has a [returncode] other than 0, 100 and 101:
    then it emits none. *)
Lemma gui_test_single_run (self : GuiTest.DownloadThread.t) :
  let dt := GuiTest.DownloadThread.download_type self in
  dt = "track_album" \/ dt = "playlist" \/ dt = "search" ->
  exists c t,
    let b := GuiTest.DownloadThread.downloader self 0 c in
    call_url c = GuiTest.DownloadThread.url self
    /\ exec (GuiTest.DownloadThread.run self) = (Normal tt, t)
    /\ calls t = [(c, b)]
    /\ length (summaries t)
       = match b with
         | Returns (WithReturncode rc) =>
             if Py.eq_int rc 100 || Py.eq_int rc 101 || Py.eq_int rc 0 then 1 else 0
         | _ => 1
         end.
Proof.
  intros dt Hdt. subst dt.
  unfold exec, GuiTest.DownloadThread.run, try_except.
  erewrite bind_normal by reflexivity.
  erewrite bind_normal by reflexivity.
  destruct Hdt as [-> | [-> | ->]]; cbn [String.eqb Ascii.eqb Bool.eqb andb].
  - destruct (Py.contains "album" (Py.lower (GuiTest.DownloadThread.url self))).
    + single_call {| call_url := GuiTest.DownloadThread.url self;
                     call_template := Template (GuiTest.DownloadThread.output_dir self)
                                        "{artist}/{album}/{title}.{output-ext}";
                     call_extra := NotPassed |}.
    + single_call {| call_url := GuiTest.DownloadThread.url self;
                     call_template := Template (GuiTest.DownloadThread.output_dir self)
                                        "{artist} - {title}.{output-ext}";
                     call_extra := NotPassed |}.
  - single_call {| call_url := GuiTest.DownloadThread.url self;
                   call_template := Template (GuiTest.DownloadThread.output_dir self)
                                      "{playlist}/{title}.{output-ext}";
                   call_extra := PassedList ["--playlist-numbering";
                                             "--playlist-retain-track-cover"] |}.
  - single_call {| call_url := GuiTest.DownloadThread.url self;
                   call_template := Template (GuiTest.DownloadThread.output_dir self)
                                      "{artist} - {title}.{output-ext}";
                   call_extra := NotPassed |}.
Qed.

(** ** gui_test.py: what the claims say of the batch run *)

Section GuiTestRunClaims.

Import GuiTest.BatchDownloadThread.

Variable fs : string -> file_read.
Variable self : t.

(** Whatever the file and the downloader, the run returns normally and
    has emitted exactly one terminal event. *)
Lemma gui_test_run_reports_once :
  exists t n m,
    exec (run fs self) = (Normal tt, t) /\ summaries t = [[Py.VInt n; Py.VInt m]].
Proof.
  destruct (fs (filepath self)) as [lines|e] eqn:Hfs.
  - destruct (gui_test_run_readable fs self lines Hfs) as (d & Hrun & Hs & _).
    eexists _, _, _. split; [exact Hrun|].
    cbn [summaries flat_map app]. fold (summaries (d ++ [Emit "finished_signal" [Py.VInt (Z.of_nat (count_success (calls d))); Py.VInt (Z.of_nat (count_job_lines lines))]])).
    rewrite summaries_app, Hs. reflexivity.
  - eexists _, _, _. split; [exact (gui_test_run_unreadable fs self e Hfs)|]. reflexivity.
Qed.


(** With a positive [max_retries], every job line of a readable file is
    handed to the downloader, under the template chosen for it, and the
    downloader is called for nothing else. *)
Lemma gui_test_run_attempts_every_line (lines : list string) :
  fs (filepath self) = Lines lines ->
  1 <= max_retries self ->
  exists t,
    exec (run fs self) = (Normal tt, t)
    /\ (forall line, In line lines -> is_job_line line = true ->
        exists b, In (gui_test_call self (Py.strip line), b) (calls t))
    /\ (forall cb, In cb (calls t) ->
        exists line, In line lines /\ is_job_line line = true
                     /\ fst cb = gui_test_call self (Py.strip line)).
Proof.
  intros Hfs Hmax.
  destruct (gui_test_run_readable fs self lines Hfs) as (d & Hrun & _ & _ & Hfrom & _ & Hall & _).
  eexists. split; [exact Hrun|].
  assert (Hcalls : calls (Configure (bitrate self) (audio_format self) (output_dir self)
                          :: d ++ [Emit "finished_signal"
                                     [Py.VInt (Z.of_nat (count_success (calls d)));
                                      Py.VInt (Z.of_nat (count_job_lines lines))]])
                   = calls d).
  { change (calls (?e :: ?l)) with (calls l). rewrite calls_app. apply app_nil_r. }
  rewrite Hcalls. split.
  - intros line Hin Hjob.
    specialize (Hall Hmax). rewrite Forall_forall in Hall. apply Hall.
    unfold read_urls. apply in_map, filter_In. split; [exact Hin|].
    now rewrite read_urls_filter.
  - intros cb Hcb. rewrite Forall_forall in Hfrom.
    destruct (Hfrom cb Hcb) as (url & Hurl & Heq).
    unfold read_urls in Hurl. apply in_map_iff in Hurl as (line & <- & Hline).
    apply filter_In in Hline as (Hin & Hjob). rewrite read_urls_filter in Hjob.
    eauto.
Qed.

(** Every pause of the run lasts [retry_delay] seconds, and the run
    makes at most [max_retries] calls for each job line. *)
Lemma gui_test_run_uses_settings (lines : list string) :
  fs (filepath self) = Lines lines ->
  exists t,
    exec (run fs self) = (Normal tt, t)
    /\ Forall (fun secs => secs = retry_delay self) (sleeps t)
    /\ length (calls t) <= count_job_lines lines * max_retries self.
Proof.
  intros Hfs.
  destruct (gui_test_run_readable fs self lines Hfs) as (d & Hrun & _ & Hsl & _ & Hlen & _).
  eexists. split; [exact Hrun|].
  change (calls (?e :: ?l)) with (calls l). change (sleeps (?e :: ?l)) with (sleeps l).
  rewrite calls_app, sleeps_app, !app_nil_r. now split.
Qed.

End GuiTestRunClaims.

(** ** gui_downloader.py: the retry loop *)

Section GuiDownloaderRetry.

Import GuiDownloader.BatchDownloadThread.

Variable self : t.
Variables (url : string) (tpl : template) (extra : extra_args).

Let c := {| call_url := url; call_template := tpl; call_extra := extra |}.

(** One attempt makes one call.  Whatever the answer, the attempt does
    not leave the loop before the last one: after a success or a
    classified failure, the emission of one argument on [update_signal]
    raises before the [break], and the handler pauses and goes on.  A
    success is counted all the same. *)
Lemma gui_downloader_attempt_body (a : nat) (s : state) :
  let b := downloader self (calls_made (trace s)) c in
  exists f d s',
    attempt_body self url tpl extra a s = (Normal f, s')
    /\ trace s' = (trace s ++ d)%list
    /\ calls d = [(c, b)]
    /\ summaries d = []
    /\ successes s' = successes s + count_success [(c, b)]
    /\ (a < GuiDownloader.MAX_RETRIES ->
        f = Next /\ sleeps d = [GuiDownloader.RETRY_DELAY])
    /\ (a = GuiDownloader.MAX_RETRIES -> sleeps d = []).
Proof.
  intros b.
  unfold attempt_body, bind, try_except, emit, run_download, sleep, perform,
    incr_success, ret, raise, count_success, is_success, attempt_result; simpl.
  fold c. rewrite calls_made_app. simpl. rewrite Nat.add_0_r. fold b.
  destruct b as [[rc|]|e]; simpl.
  - destruct (Py.eq_int rc 0); simpl;
      [destruct (Nat.eqb_spec a GuiDownloader.MAX_RETRIES); step_done|].
    destruct (Py.eq_int rc 100); simpl;
      [destruct (Nat.eqb_spec a GuiDownloader.MAX_RETRIES); step_done|].
    destruct (Py.eq_int rc 101); simpl;
      [destruct (Nat.eqb_spec a GuiDownloader.MAX_RETRIES); step_done|].
    destruct (Nat.ltb_spec a GuiDownloader.MAX_RETRIES); [step_done|].
    simpl. destruct (Nat.eqb_spec a GuiDownloader.MAX_RETRIES); step_done.
  - destruct (Nat.ltb_spec a GuiDownloader.MAX_RETRIES); [step_done|].
    simpl. destruct (Nat.eqb_spec a GuiDownloader.MAX_RETRIES); step_done.
  - destruct (Nat.eqb_spec a GuiDownloader.MAX_RETRIES); step_done.
Qed.

(** The retry loop of one URL always makes [MAX_RETRIES] calls and pauses
    [RETRY_DELAY] seconds between them, and it counts every call that the
    downloader answered with success. *)
Lemma gui_downloader_retry_loop_runs_to_the_end (s : state) :
  exists d s',
    retry_loop self url tpl extra s = (Normal tt, s')
    /\ trace s' = (trace s ++ d)%list
    /\ length (calls d) = GuiDownloader.MAX_RETRIES
    /\ sleeps d = repeat GuiDownloader.RETRY_DELAY (GuiDownloader.MAX_RETRIES - 1)
    /\ successes s' = successes s + count_success (calls d).
Proof.
  unfold retry_loop, Py.range1, GuiDownloader.MAX_RETRIES. cbn [seq for_each].
  destruct (gui_downloader_attempt_body 1 s)
    as (f1 & d1 & s1 & R1 & T1 & C1 & _ & N1 & L1 & _).
  destruct (L1 ltac:(unfold GuiDownloader.MAX_RETRIES; lia)) as (-> & P1).
  destruct (gui_downloader_attempt_body 2 s1)
    as (f2 & d2 & s2 & R2 & T2 & C2 & _ & N2 & L2 & _).
  destruct (L2 ltac:(unfold GuiDownloader.MAX_RETRIES; lia)) as (-> & P2).
  destruct (gui_downloader_attempt_body 3 s2)
    as (f3 & d3 & s3 & R3 & T3 & C3 & _ & N3 & L3 & _).
  destruct (L3 ltac:(unfold GuiDownloader.MAX_RETRIES; lia)) as (-> & P3).
  destruct (gui_downloader_attempt_body 4 s3)
    as (f4 & d4 & s4 & R4 & T4 & C4 & _ & N4 & L4 & _).
  destruct (L4 ltac:(unfold GuiDownloader.MAX_RETRIES; lia)) as (-> & P4).
  destruct (gui_downloader_attempt_body 5 s4)
    as (f5 & d5 & s5 & R5 & T5 & C5 & _ & N5 & _ & E5).
  specialize (E5 eq_refl).
  exists (d1 ++ d2 ++ d3 ++ d4 ++ d5)%list, s5.
  erewrite bind_normal by exact R1. cbn beta iota.
  erewrite bind_normal by exact R2. cbn beta iota.
  erewrite bind_normal by exact R3. cbn beta iota.
  erewrite bind_normal by exact R4. cbn beta iota.
  erewrite bind_normal by exact R5. cbn beta iota.
  rewrite !calls_app, !sleeps_app, !count_success_app, !length_app.
  rewrite P1, P2, P3, P4, E5, T5, T4, T3, T2, T1, N5, N4, N3, N2, N1.
  rewrite C1 at 1. rewrite C2 at 1. rewrite C3 at 1. rewrite C4 at 1. rewrite C5 at 1.
  rewrite <- !app_assoc.
  repeat split; try reflexivity.
  - destruct f5; reflexivity.
  - rewrite <- C1, <- C2, <- C3, <- C4, <- C5. lia.
Qed.

End GuiDownloaderRetry.

(** ** The claims *)

(** C1.  The batch run of gui_downloader.py does not always end
    with a terminal event: on a batch file whose only line is a playlist
    URL, whatever the downloader and the settings, the run ends in an
    [AttributeError] that no handler catches, before any call to the
    downloader and without any terminal event.  (The run of gui_test.py
    always returns and reports once: [gui_test_run_reports_once].) *)
Theorem C1_gui_downloader_batch_run_crashes
    (dl : Downloader) (path dir rate format : string) (max_retries retry_delay : nat) :
  let self := GuiDownloader.BatchDownloadThread.init dl path dir rate format
                max_retries retry_delay in
  let r := exec (GuiDownloader.BatchDownloadThread.run (file_with [playlist_url]) self) in
  fst r = Raised (attribute_error "BatchDownloadThread")
  /\ summaries (snd r) = []
  /\ calls (snd r) = [].
Proof.
  intros self r. subst r self. vm_compute. repeat split.
Qed.

(** C2.  On a URL that has both "playlist" and "album" in it,
    the batch thread of gui_downloader.py tests "album" first and takes
    the album route: album template, no extra arguments.  The thread of
    gui_test.py takes the playlist route on the same URL
    ([gui_test_playlist_first] for every such URL). *)
Theorem C2_gui_downloader_album_before_playlist :
  Py.contains "playlist" (Py.lower playlist_album_url) = true
  /\ Py.contains "album" (Py.lower playlist_album_url) = true
  /\ (forall self s,
        GuiDownloader.BatchDownloadThread.select_template self playlist_album_url s
        = (Normal (Template (GuiDownloader.BatchDownloadThread.output_dir self)
                     "{artist}/{album}/{title}.{output-ext}", PassedNone), s))
  /\ (forall self,
        GuiTest.BatchDownloadThread.select_template self playlist_album_url
        = (Template (GuiTest.BatchDownloadThread.output_dir self)
             "{playlist}/{title}.{output-ext}",
           PassedList ["--playlist-numbering"; "--playlist-retain-track-cover"])).
Proof.
  repeat split.
Qed.

(** C3.  In gui_downloader.py the success count can exceed the
    total: with one track URL in the file and a downloader that always
    succeeds, the terminal event is [(5, 1)].  The count is raised before
    the one-argument emission on [update_signal], whose [TypeError] sends
    the loop to its next attempt.  (In gui_test.py the count is at most
    the total: [gui_test_run_summary].) *)
Theorem C3_gui_downloader_counts_a_job_five_times
    (path dir rate format : string) (max_retries retry_delay : nat) :
  let self := GuiDownloader.BatchDownloadThread.init (always (returns 0)) path dir rate format
                max_retries retry_delay in
  let r := exec (GuiDownloader.BatchDownloadThread.run (file_with [track_url]) self) in
  fst r = Normal tt
  /\ summaries (snd r) = [[Py.VInt 5; Py.VInt 1]]
  /\ count_job_lines [track_url] = 1.
Proof.
  intros self r. subst r self. vm_compute. repeat split.
Qed.

(** C4.  In gui_downloader.py a classified failure does not
    stop the retry loop: with a downloader that always returns status
    100, the job is attempted five times with four pauses of thirty
    seconds.  (In gui_test.py the loop stops after the first attempt:
    [gui_test_first_attempt_decides].) *)
Theorem C4_gui_downloader_retries_classified_failure
    (path dir rate format : string) (max_retries retry_delay : nat) :
  let self := GuiDownloader.BatchDownloadThread.init (always (returns 100)) path dir rate format
                max_retries retry_delay in
  let r := exec (GuiDownloader.BatchDownloadThread.run (file_with [track_url]) self) in
  fst r = Normal tt
  /\ map snd (calls (snd r)) = repeat (returns 100) 5
  /\ sleeps (snd r) = [30; 30; 30; 30]
  /\ attempt_result (returns 100) = MetadataError.
Proof.
  intros self r. subst r self. vm_compute. repeat split.
Qed.

(** C5.  In gui_downloader.py, two unknown failures followed by
    a success, with five retries allowed and a delay of seven seconds
    asked for: the downloader is called five times, not three, and the
    run pauses four times for thirty seconds, not twice for seven.  (In
    gui_test.py: three calls and two pauses of [retry_delay] seconds,
    [gui_test_third_attempt_succeeds].) *)
Theorem C5_gui_downloader_goes_on_after_success (path dir rate format : string) :
  let dl := answers [returns 1; returns 1] (returns 0) in
  let self := GuiDownloader.BatchDownloadThread.init dl path dir rate format 5 7 in
  let r := exec (GuiDownloader.BatchDownloadThread.run (file_with [track_url]) self) in
  fst r = Normal tt
  /\ map snd (calls (snd r)) = [returns 1; returns 1; returns 0; returns 0; returns 0]
  /\ sleeps (snd r) = [30; 30; 30; 30].
Proof.
  intros dl self r. subst r self dl. vm_compute. repeat split.
Qed.

(** C6.  The batch thread of gui_downloader.py does not keep
    the [max_retries] and [retry_delay] it is created with: two threads
    that differ in them only are the same thread, and with two retries
    and a delay of one second asked for, a downloader that always raises
    is called [MAX_RETRIES = 5] times with pauses of [RETRY_DELAY = 30]
    seconds.  (In gui_test.py the settings of the run govern the loop:
    [gui_test_retry_loop_bounded], [gui_test_run_uses_settings].) *)
Theorem C6_gui_downloader_ignores_retry_settings :
  (forall dl path dir rate format max_retries retry_delay max_retries' retry_delay',
     GuiDownloader.BatchDownloadThread.init dl path dir rate format max_retries retry_delay
     = GuiDownloader.BatchDownloadThread.init dl path dir rate format max_retries' retry_delay')
  /\ (forall (e : Py.exn) (path dir rate format : string),
        let self := GuiDownloader.BatchDownloadThread.init (always (Raises e))
                      path dir rate format 2 1 in
        let r := exec (GuiDownloader.BatchDownloadThread.run (file_with [track_url]) self) in
        fst r = Normal tt
        /\ length (calls (snd r)) = 5
        /\ sleeps (snd r) = [30; 30; 30; 30]).
Proof.
  split; [reflexivity|].
  intros e path dir rate format self r. subst r self. vm_compute. repeat split.
Qed.

(** C7.  When every line of a readable batch file is blank or
    a comment, the batch run, in gui_test.py and in gui_downloader.py
    alike, emits the "no URLs" warning and the terminal event [(0, 0)] and
    returns; the downloader is not called. *)
Theorem C7_no_jobs_is_a_reported_no_op (lines : list string) :
  Forall (fun line => is_job_line line = false) lines ->
  (forall fs self,
     fs (GuiTest.BatchDownloadThread.filepath self) = Lines lines ->
     let r := exec (GuiTest.BatchDownloadThread.run fs self) in
     r = (Normal tt,
          [Configure (GuiTest.BatchDownloadThread.bitrate self)
             (GuiTest.BatchDownloadThread.audio_format self)
             (GuiTest.BatchDownloadThread.output_dir self);
           Emit "update_signal" [Py.VStr "No URLs found in file"; Py.VStr "warning"];
           Emit "finished_signal" [Py.VInt 0; Py.VInt 0]])
     /\ calls (snd r) = [])
  /\ (forall fs self,
        fs (GuiDownloader.BatchDownloadThread.filepath self) = Lines lines ->
        let r := exec (GuiDownloader.BatchDownloadThread.run fs self) in
        r = (Normal tt,
             [Configure (GuiDownloader.BatchDownloadThread.bitrate self)
                (GuiDownloader.BatchDownloadThread.audio_format self)
                (GuiDownloader.BatchDownloadThread.output_dir self);
              Emit "update_signal" [Py.VStr "No URLs in the file"; Py.VStr "warning"];
              Emit "finished_signal" [Py.VInt 0; Py.VInt 0]])
        /\ calls (snd r) = []).
Proof.
  intros Hlines. apply read_urls_no_jobs in Hlines.
  split; intros fs self Hfs r; subst r.
  - unfold exec, GuiTest.BatchDownloadThread.run, read_lines. rewrite Hfs.
    erewrite bind_normal by reflexivity.
    erewrite bind_normal by reflexivity.
    rewrite Hlines. split; reflexivity.
  - unfold exec, GuiDownloader.BatchDownloadThread.run, read_lines. rewrite Hfs.
    erewrite bind_normal by reflexivity.
    erewrite bind_normal by reflexivity.
    rewrite Hlines. split; reflexivity.
Qed.

Lemma C7_no_jobs_witness :
  let lines := ["# my playlists" ++ nl; "   " ++ nl; nl; "  # https://open.spotify.com/album/1"] in
  Forall (fun line => is_job_line line = false) lines
  /\ exec (GuiTest.BatchDownloadThread.run (file_with lines)
             (GuiTest.BatchDownloadThread.init (always (returns 0)) "urls.txt" "out" "320k" "mp3" 5 20))
     = (Normal tt,
        [Configure "320k" "mp3" "out";
         Emit "update_signal" [Py.VStr "No URLs found in file"; Py.VStr "warning"];
         Emit "finished_signal" [Py.VInt 0; Py.VInt 0]])
  /\ exec (GuiDownloader.BatchDownloadThread.run (file_with lines)
             (GuiDownloader.BatchDownloadThread.init (always (returns 0))
                "urls.txt" "out" "320k" "mp3" 5 20))
     = (Normal tt,
        [Configure "320k" "mp3" "out";
         Emit "update_signal" [Py.VStr "No URLs in the file"; Py.VStr "warning"];
         Emit "finished_signal" [Py.VInt 0; Py.VInt 0]]).
Proof.
  intros lines.
  assert (H : Forall (fun line => is_job_line line = false) lines)
    by (repeat constructor).
  split; [exact H|].
  destruct (C7_no_jobs_is_a_reported_no_op lines H) as [Htest Hdown].
  split.
  - exact (proj1 (Htest (file_with lines)
                    (GuiTest.BatchDownloadThread.init (always (returns 0))
                       "urls.txt" "out" "320k" "mp3" 5 20) eq_refl)).
  - exact (proj1 (Hdown (file_with lines)
                    (GuiDownloader.BatchDownloadThread.init (always (returns 0))
                       "urls.txt" "out" "320k" "mp3" 5 20) eq_refl)).
Defined.

(** C8.  In gui_downloader.py a batch file that cannot be
    opened ends the run in a [TypeError]: the handler of the read error
    emits one argument on the two-argument [update_signal], so neither the
    error event nor the terminal event [(0, 0)] is emitted.  (In
    gui_test.py both are: [gui_test_run_unreadable].) *)
Theorem C8_gui_downloader_unreadable_file_crashes
    (dl : Downloader) (path dir rate format : string) (max_retries retry_delay : nat) :
  let self := GuiDownloader.BatchDownloadThread.init dl path dir rate format
                max_retries retry_delay in
  let r := exec (GuiDownloader.BatchDownloadThread.run no_such_file self) in
  r = (Raised arity_error, [Configure rate format dir])
  /\ summaries (snd r) = []
  /\ calls (snd r) = [].
Proof.
  intros self r. subst r self. vm_compute. repeat split.
Qed.

(** C9.  The single download does not always deliver a result:
    when the downloader returns an object whose [returncode] is 1, the
    thread of either file calls the downloader once and returns without
    emitting [finished_signal].  The result check has branches for 0, 100
    and 101 and for a missing [returncode], and none for another status.
    (For every other answer one terminal event is emitted:
    [gui_test_single_run].) *)
Theorem C9_single_run_drops_other_returncodes (dir rate format : string) :
  let test := GuiTest.DownloadThread.init (always (returns 1))
                track_url "track_album" dir rate format in
  let down := GuiDownloader.DownloadThread.init (always (returns 1))
                track_url "track" dir rate format in
  let r := exec (GuiTest.DownloadThread.run test) in
  let r' := exec (GuiDownloader.DownloadThread.run down) in
  (fst r = Normal tt /\ map snd (calls (snd r)) = [returns 1] /\ summaries (snd r) = [])
  /\ (fst r' = Normal tt /\ map snd (calls (snd r')) = [returns 1] /\ summaries (snd r') = [])
  /\ attempt_result (returns 1) = UnknownFailure.
Proof.
  intros test down r r'. subst r r' test down. vm_compute. repeat split.
Qed.

(** C10.  The batch thread of gui_downloader.py does not attempt
    every line: a playlist URL ends the run in an [AttributeError] before
    the downloader is called, and the lines after it are never reached.
    (In gui_test.py every job line is attempted, and a line with neither
    "playlist" nor "album" in it goes the track route:
    [gui_test_run_attempts_every_line], [gui_test_track_otherwise].) *)
Theorem C10_gui_downloader_skips_lines
    (dl : Downloader) (path dir rate format : string) (max_retries retry_delay : nat) :
  let self := GuiDownloader.BatchDownloadThread.init dl path dir rate format
                max_retries retry_delay in
  let r := exec (GuiDownloader.BatchDownloadThread.run
                   (file_with [playlist_url; track_url]) self) in
  count_job_lines [playlist_url; track_url] = 2
  /\ fst r = Raised (attribute_error "BatchDownloadThread")
  /\ calls (snd r) = [].
Proof.
  intros self r. subst r self. vm_compute. repeat split.
Qed.

(** * More of the code *)

(** ** Loops and traces *)

Lemma updates_app t u : updates (t ++ u) = (updates t ++ updates u)%list.
Proof. apply flat_map_app. Qed.

Lemma progress_app t u : progress (t ++ u) = (progress t ++ progress u)%list.
Proof. apply flat_map_app. Qed.

(** A loop whose body always returns normally returns normally, and a
    property of what the body adds to the trace that holds of nothing
    and is kept by concatenation holds of what the loop adds. *)
Lemma for_each_adds {A} (P : list effect -> Prop) (body : A -> M flow) :
  P [] ->
  (forall d1 d2, P d1 -> P d2 -> P (d1 ++ d2)%list) ->
  (forall x s, exists f d s',
      body x s = (Normal f, s') /\ trace s' = (trace s ++ d)%list /\ P d) ->
  forall xs s, exists d s',
      for_each xs body s = (Normal tt, s') /\ trace s' = (trace s ++ d)%list /\ P d.
Proof.
  intros Hnil Happ Hbody. induction xs as [|x xs IH]; intros s.
  - exists [], s. cbn. rewrite app_nil_r. auto.
  - destruct (Hbody x s) as (f & d1 & s1 & Hrun1 & Ht1 & Hp1).
    cbn [for_each]. erewrite bind_normal by exact Hrun1.
    destruct f.
    + destruct (IH s1) as (d2 & s2 & Hrun2 & Ht2 & Hp2).
      exists (d1 ++ d2)%list, s2. rewrite Hrun2, Ht2, Ht1, app_assoc. auto.
    + exists d1, s1. auto.
Qed.

Lemma map_constant {A B} (b : B) (l : list A) : map (fun _ => b) l = repeat b (length l).
Proof. induction l as [|x l IH]; [reflexivity|]. cbn. now rewrite IH. Qed.

(** What two descriptions of the same run add to the trace is the same. *)
Lemma same_addition {A} (m : M A) s o1 s1 o2 s2 d1 d2 :
  m s = (o1, s1) -> trace s1 = (trace s ++ d1)%list ->
  m s = (o2, s2) -> trace s2 = (trace s ++ d2)%list ->
  o1 = o2 /\ s1 = s2 /\ d1 = d2.
Proof.
  intros H1 T1 H2 T2. rewrite H1 in H2. inversion H2; subst.
  repeat split. rewrite T1 in T2. now apply app_inv_head in T2.
Qed.

(** ** gui_test.py: the shape of the trace of a batch run *)

Section GuiTestShape.

Import GuiTest.BatchDownloadThread.

Variable self : t.

Lemma quiet_nil : quiet [].
Proof. repeat split. Qed.

Lemma quiet_app d1 d2 : quiet d1 -> quiet d2 -> quiet (d1 ++ d2).
Proof.
  intros (P1 & S1 & U1) (P2 & S2 & U2). unfold quiet.
  rewrite progress_app, summaries_app, updates_app, forallb_app, P1, P2, S1, S2, U1, U2.
  repeat split.
Qed.

Lemma gui_test_attempt_quiet url tpl extra (a : nat) (s : state) :
  exists f d s',
    attempt_body self url tpl extra a s = (Normal f, s')
    /\ trace s' = (trace s ++ d)%list
    /\ quiet d.
Proof.
  unfold attempt_body, bind, try_except, emit, run_download, sleep, perform,
    incr_success, ret, quiet; simpl.
  match goal with |- context [downloader self ?n ?c] =>
    destruct (downloader self n c) as [[rc|]|e]; simpl
  end.
  - destruct (Py.eq_int rc 0); simpl; [step_done|].
    destruct (Py.eq_int rc 100); simpl; [step_done|].
    destruct (Py.eq_int rc 101); simpl; [step_done|].
    destruct (Nat.ltb_spec a (max_retries self)); step_done.
  - destruct (Nat.ltb_spec a (max_retries self)); step_done.
  - destruct (Nat.eqb_spec a (max_retries self)); step_done.
Qed.

Lemma gui_test_retry_quiet url tpl extra (s : state) :
  exists d s',
    retry_loop self url tpl extra s = (Normal tt, s')
    /\ trace s' = (trace s ++ d)%list
    /\ quiet d.
Proof.
  apply (for_each_adds quiet); [exact quiet_nil | exact quiet_app |].
  intros a s0. apply gui_test_attempt_quiet.
Qed.

(** One URL: a progress event, the "Processing" message, then the retry
    loop, which makes [k] calls for the URL, all with the call chosen for
    it, and pauses between two of them. *)
Lemma gui_test_process_url_block (total i : nat) (url : string) (s : state) :
  exists k d s',
    process_url self total (i, url) s = (Normal Next, s')
    /\ trace s' = (trace s ++ d)%list
    /\ progress d = [[Py.VInt (Z.of_nat i); Py.VInt (Z.of_nat total)]]
    /\ summaries d = []
    /\ forallb known_update (updates d) = true
    /\ map fst (calls d) = repeat (gui_test_call self url) k
    /\ k <= max_retries self
    /\ (1 <= max_retries self -> 1 <= k)
    /\ sleeps d = repeat (retry_delay self) (k - 1)
    /\ successes s' = successes s + count_success (calls d).
Proof.
  unfold process_url, gui_test_call.
  destruct (select_template self url) as [tpl extra]. cbn [fst snd].
  do 2 run_emit.
  match goal with |- context [bind (retry_loop self url tpl extra) _ ?s1] =>
    destruct (gui_test_retry_loop_refines self url tpl extra s1)
      as (d & s' & Hrun & Ht & Hs & Hc & Hsl & Hsucc & _);
    destruct (gui_test_retry_quiet url tpl extra s1)
      as (d' & s'' & Hrun' & Ht' & Hp & _ & Hu)
  end.
  destruct (same_addition _ _ _ _ _ _ _ _ Hrun Ht Hrun' Ht') as (_ & _ & <-).
  clear Hrun' Ht' s''.
  erewrite bind_normal by exact Hrun.
  cbn [ret trace successes] in *.
  match type of Hsl with context [runWithRetries ?r 1 ?m] =>
    pose proof (runWithRetries_used_bounds r m 1 (le_n 1)) as (_ & Hub & Hlb);
    pose proof (runWithRetries_pauses r m 1 (le_n 1)) as Hpause;
    set (job := runWithRetries r 1 m) in *
  end.
  exists (attemptsUsed (fst job)). eexists (_ :: _ :: d), s'.
  split; [reflexivity|].
  split; [now rewrite Ht, <- !app_assoc|].
  cbn [summaries calls sleeps progress updates flat_map Qt.sig_name progress_signal
       update_signal String.eqb Ascii.eqb Bool.eqb app forallb known_update].
  fold (summaries d) (calls d) (sleeps d) (progress d) (updates d).
  rewrite Hp, Hs, Hu, Hc, Hsl, map_map. cbn [fst].
  repeat split; try lia.
  - now rewrite map_constant, length_seq.
  - destruct (max_retries self) as [|m]; [reflexivity|].
    f_equal. specialize (Hpause ltac:(lia)). lia.
  - rewrite Hsucc. now rewrite Hc.
Qed.

(** The loop over the URLs, from index [i] on: one progress event per
    URL, numbered in order, and the calls of the URLs in the order of the
    list, [ks] giving how many each. *)
Lemma gui_test_url_loop_shape (total : nat) : forall urls i s,
  exists ks d s',
    for_each (combine (seq i (length urls)) urls) (process_url self total) s = (Normal tt, s')
    /\ trace s' = (trace s ++ d)%list
    /\ progress d = map (fun k => [Py.VInt (Z.of_nat k); Py.VInt (Z.of_nat total)])
                      (seq i (length urls))
    /\ summaries d = []
    /\ forallb known_update (updates d) = true
    /\ length ks = length urls
    /\ Forall (fun k => k <= max_retries self /\ (1 <= max_retries self -> 1 <= k)) ks
    /\ map fst (calls d) = call_blocks (map (gui_test_call self) urls) ks
    /\ sleeps d = repeat (retry_delay self) (list_sum (map pred ks))
    /\ successes s' = successes s + count_success (calls d).
Proof.
  induction urls as [|url urls IH]; intros i s.
  - exists [], [], s. cbn. rewrite app_nil_r. repeat split; auto.
  - cbn [length seq combine for_each].
    destruct (gui_test_process_url_block total i url s)
      as (k & d1 & s1 & R1 & T1 & P1 & S1 & U1 & C1 & K1 & K1' & L1 & N1).
    destruct (IH (S i) s1)
      as (ks & d2 & s2 & R2 & T2 & P2 & S2 & U2 & Hlen & Hks & C2 & L2 & N2).
    erewrite bind_normal by exact R1.
    exists (k :: ks), (d1 ++ d2)%list, s2.
    rewrite progress_app, summaries_app, updates_app, calls_app, sleeps_app,
      count_success_app, forallb_app, map_app.
    rewrite P1, P2, S1, S2, U1, U2, C1, C2, L1, L2, T2, T1, N2, N1.
    cbn [map list_sum length]. unfold call_blocks. cbn [combine flat_map fst snd].
    change (list_sum (pred k :: map pred ks)) with (pred k + list_sum (map pred ks)).
    rewrite repeat_app, <- app_assoc.
    replace (pred k) with (k - 1) by lia.
    repeat split; auto; try lia.
Qed.

End GuiTestShape.

(** A run on a readable file: its trace is the configuration of the
    downloader, what the jobs add, and the terminal event; what the jobs
    add has one progress event per job line, numbered from 1, update
    events of known types, and the calls of the job lines in the order of
    the file, [ks] giving how many each. *)
Lemma gui_test_run_shape (fs : string -> file_read) (self : GuiTest.BatchDownloadThread.t)
    (lines : list string) :
  fs (GuiTest.BatchDownloadThread.filepath self) = Lines lines ->
  let n := count_job_lines lines in
  exists ks d,
    exec (GuiTest.BatchDownloadThread.run fs self)
    = (Normal tt,
       Configure (GuiTest.BatchDownloadThread.bitrate self)
         (GuiTest.BatchDownloadThread.audio_format self)
         (GuiTest.BatchDownloadThread.output_dir self)
       :: d ++ [Emit "finished_signal"
                  [Py.VInt (Z.of_nat (count_success (calls d))); Py.VInt (Z.of_nat n)]])
    /\ progress d = map (fun k => [Py.VInt (Z.of_nat k); Py.VInt (Z.of_nat n)]) (seq 1 n)
    /\ summaries d = []
    /\ forallb known_update (updates d) = true
    /\ length ks = n
    /\ Forall (fun k => k <= GuiTest.BatchDownloadThread.max_retries self
                        /\ (1 <= GuiTest.BatchDownloadThread.max_retries self -> 1 <= k)) ks
    /\ map fst (calls d) = call_blocks (map (gui_test_call self) (read_urls lines)) ks
    /\ sleeps d = repeat (GuiTest.BatchDownloadThread.retry_delay self)
                    (list_sum (map pred ks)).
Proof.
  intros Hfs n. subst n. rewrite <- read_urls_length.
  unfold exec, GuiTest.BatchDownloadThread.run, read_lines. rewrite Hfs.
  erewrite bind_normal by reflexivity.
  erewrite bind_normal by reflexivity.
  destruct (read_urls lines) as [|url urls] eqn:Hurls.
  - exists [], [Emit "update_signal" [Py.VStr "No URLs found in file"; Py.VStr "warning"]].
    split; [reflexivity|]. cbn. repeat split; auto.
  - rewrite <- Hurls.
    erewrite bind_normal by reflexivity.
    unfold Py.enumerate1.
    match goal with |- context [bind (for_each _ _) _ ?s1] =>
      destruct (gui_test_url_loop_shape self (length (read_urls lines)) (read_urls lines) 1 s1)
        as (ks & d & s' & Hrun & Ht & Hp & Hs & Hu & Hlen & Hks & Hc & Hsl & Hsucc)
    end.
    erewrite bind_normal by exact Hrun.
    cbn [trace successes initial app perform set_success] in Ht, Hsucc.
    exists ks, d.
    erewrite bind_normal by reflexivity.
    unfold emit. cbn [Qt.check GuiTest.BatchDownloadThread.finished_signal Qt.sig_types
                      Qt.sig_name length Nat.eqb negb
                      Qt.first_mismatch Qt.accepts perform trace successes].
    rewrite Ht, Hsucc. cbn [Nat.add app].
    repeat split; assumption.
Qed.

(** ** gui_test.py: the slots of the window *)

Import SpotifyDownloaderGUI.

Ltac decide_ifs :=
  repeat match goal with
         | |- context [if ?b then _ else _] => destruct b
         end.

Lemma adds_ret : adds (uret tt) [].
Proof. intros w. unfold uret, extend. rewrite app_nil_r. destruct w; reflexivity. Qed.

Lemma adds_widget name method args : adds (widget name method args) [Widget name method args].
Proof. intros w. reflexivity. Qed.

Lemma adds_bind m k l1 l2 : adds m l1 -> adds k l2 -> adds (ubind m (fun _ => k)) (l1 ++ l2).
Proof.
  intros Hm Hk w. unfold ubind. rewrite Hm, Hk. unfold extend. cbn.
  now rewrite app_assoc.
Qed.

Ltac fail_if_open := match goal with |- adds _ _ => fail 1 | _ => idtac end.

Ltac shows :=
  eexists; repeat first [apply adds_bind | apply adds_widget | apply adds_ret];
  fail_if_open.

Lemma adds_out (slot : effect -> U unit) e l :
  adds (slot e) l -> shown (snd (slot e blank)) = l.
Proof. intros H. now rewrite H. Qed.

(** A slot never raises, leaves the inputs and the disk alone, and adds
    to what is shown what it shows on a blank window. *)
Lemma batch_slot_adds (e : effect) : exists l, adds (batch_slot e) l.
Proof.
  destruct e as [? ? ?|name args|? ?|?];
    [cbn [batch_slot]; shows | | cbn [batch_slot]; shows | cbn [batch_slot]; shows].
  destruct args as [|[m| a | |] [|[ty|b| |] [|? ?]]]; cbn [batch_slot]; try shows.
  - destruct (name =? "update_signal"); [|shows].
    unfold update_batch_console. shows.
  - unfold update_batch_progress, batch_download_finished.
    destruct (name =? "progress_signal"); [shows|].
    destruct (name =? "finished_signal"); [|shows].
    destruct (0 <? b)%Z; [destruct (a =? b)%Z|]; shows.
Qed.

Lemma batch_slot_shows (e : effect) (w : world) :
  batch_slot e w = (Normal tt, extend w (batch_out e)).
Proof.
  destruct (batch_slot_adds e) as [l Hl].
  unfold batch_out. now rewrite (adds_out batch_slot e l Hl).
Qed.

Lemma single_slot_adds (e : effect) : exists l, adds (single_slot e) l.
Proof.
  destruct e as [? ? ?|name args|? ?|?];
    [cbn [single_slot]; shows | | cbn [single_slot]; shows | cbn [single_slot]; shows].
  destruct args as [|[m| |b|] [|[m'| | |] [|? ?]]]; cbn [single_slot]; try shows.
  - destruct (name =? "update_signal"); [|shows].
    unfold update_console. shows.
  - unfold download_finished.
    destruct (name =? "finished_signal"); [destruct b|]; shows.
Qed.

Lemma single_slot_shows (e : effect) (w : world) :
  single_slot e w = (Normal tt, extend w (single_out e)).
Proof.
  destruct (single_slot_adds e) as [l Hl].
  unfold single_out. now rewrite (adds_out single_slot e l Hl).
Qed.

Lemma deliver_shows (slot : effect -> U unit) (out : effect -> list ui) :
  (forall e w, slot e w = (Normal tt, extend w (out e))) ->
  forall t w, deliver slot t w = (Normal tt, extend w (flat_map out t)).
Proof.
  intros Hslot. induction t as [|e t IH]; intros w.
  - unfold extend. cbn. rewrite app_nil_r. destruct w; reflexivity.
  - cbn [deliver flat_map]. unfold ubind. rewrite Hslot, IH. unfold extend. cbn.
    now rewrite <- app_assoc.
Qed.

(** What the slots of the batch tab show, event by event. *)
Lemma batch_out_update name m ty :
  batch_out (Emit name [Py.VStr m; Py.VStr ty])
  = if name =? "update_signal"
    then shown (snd (update_batch_console m ty blank))
    else [].
Proof. unfold batch_out. cbn [batch_slot]. now destruct (name =? "update_signal"). Qed.

Lemma batch_out_ints name a b :
  batch_out (Emit name [Py.VInt a; Py.VInt b])
  = if name =? "progress_signal" then shown (snd (update_batch_progress a b blank))
    else if name =? "finished_signal" then shown (snd (batch_download_finished a b blank))
    else [].
Proof.
  unfold batch_out. cbn [batch_slot].
  destruct (name =? "progress_signal"); [reflexivity|].
  now destruct (name =? "finished_signal").
Qed.

Lemma batch_out_other e :
  match e with
  | Emit _ [Py.VStr _; Py.VStr _] | Emit _ [Py.VInt _; Py.VInt _] => True
  | _ => batch_out e = []
  end.
Proof.
  destruct e as [? ? ?|name args|? ?|?]; try reflexivity.
  destruct args as [|[m| a | |] [|[ty|b| |] [|? ?]]]; try reflexivity; exact I.
Qed.

Lemma widget_calls_app name method l1 l2 :
  widget_calls name method (l1 ++ l2)
  = (widget_calls name method l1 ++ widget_calls name method l2)%list.
Proof. apply flat_map_app. Qed.

(** A reading of what the window shows that agrees, event by event, with
    a reading of the trace agrees with it on a whole trace. *)
Lemma reading_lifts {X} (out : effect -> list ui) (pi : list ui -> list X)
    (rho : effect -> list X) :
  pi [] = [] ->
  (forall l1 l2, pi (l1 ++ l2)%list = (pi l1 ++ pi l2)%list) ->
  (forall e, pi (out e) = rho e) ->
  forall t, pi (flat_map out t) = flat_map rho t.
Proof.
  intros Hnil Happ Hone. induction t as [|e t IH]; [exact Hnil|].
  cbn [flat_map]. now rewrite Happ, Hone, IH.
Qed.

Lemma flat_map_compose {A B C} (f : A -> list B) (g : B -> list C) (t : list A) :
  flat_map g (flat_map f t) = flat_map (fun x => flat_map g (f x)) t.
Proof.
  induction t as [|x t IH]; [reflexivity|].
  cbn [flat_map]. now rewrite flat_map_app, IH.
Qed.

Lemma flat_map_of_map {A B C} (h : A -> B) (g : B -> list C) (l : list A) :
  flat_map g (map h l) = flat_map (fun x => g (h x)) l.
Proof. induction l as [|x l IH]; [reflexivity|]. cbn. now rewrite IH. Qed.

Lemma flat_map_singleton {A B} (f : A -> B) (l : list A) :
  flat_map (fun x => [f x]) l = map f l.
Proof. induction l as [|x l IH]; [reflexivity|]. cbn. now rewrite IH. Qed.

Ltac effect_cases e :=
  destruct e as [? ? ?|?name ?args|? ?|?];
  [ | destruct args as [|[?m|?a| |] [|[?ty|?b| |] [|? ?]]] | | ].

(** The values the progress bar is set to are the first components of
    the progress events; its maxima are the second ones. *)
Lemma progress_bar_reading (method : string) (pick : Z -> Z -> Z) t :
  (method = "setValue" /\ pick = (fun a _ => a))
  \/ (method = "setMaximum" /\ pick = (fun _ b => b)) ->
  widget_calls "batch_progress_bar" method (flat_map batch_out t)
  = flat_map (fun args => match args with
                          | [Py.VInt a; Py.VInt b] => [[Py.VInt (pick a b)]]
                          | _ => []
                          end) (progress t).
Proof.
  intros Hm. unfold progress. rewrite flat_map_compose.
  apply reading_lifts; [reflexivity | apply widget_calls_app |].
  intros e. effect_cases e; try reflexivity;
    try (cbn [flat_map app]; destruct (name =? "progress_signal"); reflexivity).
  - rewrite batch_out_update.
    destruct (name =? "update_signal");
      destruct (name =? "progress_signal"); destruct Hm as [[-> ->]|[-> ->]]; reflexivity.
  - rewrite batch_out_ints.
    destruct (String.eqb_spec name "progress_signal") as [->|Hp].
    + destruct Hm as [[-> ->]|[-> ->]]; reflexivity.
    + destruct (name =? "finished_signal"); [|reflexivity].
      unfold batch_download_finished.
      destruct Hm as [[-> ->]|[-> ->]];
        destruct (0 <? b)%Z; [destruct (a =? b)%Z| |destruct (a =? b)%Z|]; reflexivity.
Qed.

(** The batch button is enabled, and the status line written, once for
    every terminal event. *)
Lemma batch_button_reading t :
  widget_calls "batch_download_button" "setEnabled" (flat_map batch_out t)
  = flat_map (fun args => match args with
                          | [Py.VInt _; Py.VInt _] => [[Py.VBool true]]
                          | _ => []
                          end) (summaries t).
Proof.
  unfold summaries. rewrite flat_map_compose.
  apply reading_lifts; [reflexivity | apply widget_calls_app |].
  intros e. effect_cases e; try reflexivity;
    try (cbn [flat_map app]; destruct (name =? "finished_signal"); reflexivity).
  - rewrite batch_out_update.
    destruct (name =? "update_signal"); destruct (name =? "finished_signal"); reflexivity.
  - rewrite batch_out_ints.
    destruct (String.eqb_spec name "progress_signal") as [->|Hp]; [reflexivity|].
    cbn [flat_map app].
    destruct (name =? "finished_signal"); [|reflexivity].
    unfold batch_download_finished.
    destruct (0 <? b)%Z; [destruct (a =? b)%Z|]; reflexivity.
Qed.




(** The thread of a batch, run to its end with its signals delivered. *)
Lemma run_batch_thread_shows (t : GuiTest.BatchDownloadThread.t) (w : world) :
  run_thread (Batch t) w
  = (Normal tt,
     extend w (flat_map batch_out
                 (snd (exec (GuiTest.BatchDownloadThread.run (fs_of (disk w)) t))))).
Proof. unfold run_thread. apply deliver_shows, batch_slot_shows. Qed.

(** ** gui_test.py: a batch seen from the window *)

(** Whatever the batch file and the downloader do, the signals of the
    batch thread re-enable the batch button exactly once, and no slot
    raises or touches the inputs or the disk. *)
Theorem batch_thread_gives_the_button_back (t : GuiTest.BatchDownloadThread.t) (w : world) :
  exists w',
    run_thread (Batch t) w = (Normal tt, w')
    /\ inputs w' = inputs w
    /\ disk w' = disk w
    /\ widget_calls "batch_download_button" "setEnabled" (shown w')
       = (widget_calls "batch_download_button" "setEnabled" (shown w) ++ [[Py.VBool true]])%list.
Proof.
  rewrite run_batch_thread_shows. eexists. split; [reflexivity|].
  destruct (gui_test_run_reports_once (fs_of (disk w)) t) as (tr & n & m & Hrun & Hsum).
  rewrite Hrun. cbn [snd extend inputs disk shown].
  rewrite widget_calls_app, batch_button_reading, Hsum.
  repeat split.
Qed.

(** On a readable batch file with [n] job lines, the progress bar is set
    to 1, 2, ..., [n] in this order, each time with maximum [n]. *)
Theorem batch_progress_bar_counts_the_jobs (t : GuiTest.BatchDownloadThread.t) (w : world)
    (lines : list string) :
  disk w (GuiTest.BatchDownloadThread.filepath t) = Some (Lines lines) ->
  let n := count_job_lines lines in
  exists w',
    run_thread (Batch t) w = (Normal tt, w')
    /\ widget_calls "batch_progress_bar" "setValue" (shown w')
       = (widget_calls "batch_progress_bar" "setValue" (shown w)
          ++ map (fun k => [Py.VInt (Z.of_nat k)]) (seq 1 n))%list
    /\ widget_calls "batch_progress_bar" "setMaximum" (shown w')
       = (widget_calls "batch_progress_bar" "setMaximum" (shown w)
          ++ repeat [Py.VInt (Z.of_nat n)] n)%list.
Proof.
  intros Hdisk n.
  rewrite run_batch_thread_shows. eexists. split; [reflexivity|].
  assert (Hfs : fs_of (disk w) (GuiTest.BatchDownloadThread.filepath t) = Lines lines)
    by (unfold fs_of; now rewrite Hdisk).
  destruct (gui_test_run_shape (fs_of (disk w)) t lines Hfs) as (ks & d & Hrun & Hp & _).
  rewrite Hrun. cbn [snd extend shown]. fold n in Hp.
  rewrite !widget_calls_app.
  rewrite (progress_bar_reading "setValue" (fun a _ => a)) by (left; split; reflexivity).
  rewrite (progress_bar_reading "setMaximum" (fun _ b => b)) by (right; split; reflexivity).
  change (progress (?e :: ?l)) with (progress l).
  rewrite progress_app, Hp. cbn [progress flat_map String.eqb Ascii.eqb Bool.eqb].
  rewrite app_nil_r, !flat_map_of_map. cbn beta iota.
  rewrite !flat_map_singleton, map_constant, length_seq.
  split; reflexivity.
Qed.

Lemma batch_progress_bar_witness :
  disk sample_window (GuiTest.BatchDownloadThread.filepath (sample_batch (always (returns 0))))
  = Some (Lines sample_lines)
  /\ exists w',
      run_thread (Batch (sample_batch (always (returns 0)))) sample_window = (Normal tt, w')
      /\ widget_calls "batch_progress_bar" "setValue" (shown w')
         = [[Py.VInt 1]; [Py.VInt 2]]
      /\ widget_calls "batch_progress_bar" "setMaximum" (shown w')
         = [[Py.VInt 2]; [Py.VInt 2]].
Proof.
  split; [reflexivity|].
  exact (batch_progress_bar_counts_the_jobs (sample_batch (always (returns 0)))
           sample_window sample_lines eq_refl).
Defined.





(** Every update event of a batch run carries a message and a type that
    is a key of the colour map of the batch console, so the console never
    falls back on its default colour. *)
Theorem batch_console_knows_every_type (fs : string -> file_read)
    (t : GuiTest.BatchDownloadThread.t) :
  Forall (fun args =>
            exists message msg_type color,
              args = [Py.VStr message; Py.VStr msg_type]
              /\ In (msg_type, color) color_map
              /\ dict_get color_map msg_type "black" = color)
         (updates (snd (exec (GuiTest.BatchDownloadThread.run fs t)))).
Proof.
  assert (Hknown : forallb known_update
                     (updates (snd (exec (GuiTest.BatchDownloadThread.run fs t)))) = true).
  { destruct (fs (GuiTest.BatchDownloadThread.filepath t)) as [lines|e] eqn:Hfs.
    - destruct (gui_test_run_shape fs t lines Hfs) as (ks & d & Hrun & _ & _ & Hu & _).
      rewrite Hrun. cbn [snd]. change (updates (?e :: ?l)) with (updates l).
      rewrite updates_app, forallb_app, Hu. reflexivity.
    - rewrite (gui_test_run_unreadable fs t e Hfs). reflexivity. }
  apply Forall_forall. intros args Hin.
  rewrite forallb_forall in Hknown. specialize (Hknown args Hin).
  destruct args as [|[m| | |] [|[ty| | |] [|? ?]]];
    cbn [known_update] in Hknown; try discriminate.
  cbn [color_map map fst existsb] in Hknown.
  exists m, ty, (dict_get color_map ty "black").
  split; [reflexivity|]. split; [|reflexivity].
  destruct (ty =? "info") eqn:E1.
  { apply String.eqb_eq in E1. subst ty. cbn. auto. }
  destruct (ty =? "success") eqn:E2.
  { apply String.eqb_eq in E2. subst ty. cbn. auto. }
  destruct (ty =? "error") eqn:E3.
  { apply String.eqb_eq in E3. subst ty. cbn. auto. }
  destruct (ty =? "warning") eqn:E4.
  { apply String.eqb_eq in E4. subst ty. cbn. auto 6. }
  discriminate.
Qed.

(** ** gui_test.py: order and cost of a batch run *)

Lemma calls_of_run_trace c d f : calls (c :: d ++ [Emit "finished_signal" f]) = calls (c :: d).
Proof.
  change (c :: d ++ [Emit "finished_signal" f])%list with ((c :: d) ++ [Emit "finished_signal" f])%list.
  rewrite calls_app. apply app_nil_r.
Qed.

(** The downloader is called for the job lines in the order of the
    file: first [k1] times for the first one, then [k2] times for the
    second one, and so on, each [k] at most [max_retries] and, when
    [max_retries] is positive, at least one. *)
Theorem gui_test_calls_follow_the_file (fs : string -> file_read)
    (self : GuiTest.BatchDownloadThread.t) (lines : list string) :
  fs (GuiTest.BatchDownloadThread.filepath self) = Lines lines ->
  exists tr ks,
    exec (GuiTest.BatchDownloadThread.run fs self) = (Normal tt, tr)
    /\ length ks = count_job_lines lines
    /\ Forall (fun k => k <= GuiTest.BatchDownloadThread.max_retries self
                        /\ (1 <= GuiTest.BatchDownloadThread.max_retries self -> 1 <= k)) ks
    /\ map fst (calls tr) = call_blocks (map (gui_test_call self) (read_urls lines)) ks.
Proof.
  intros Hfs.
  destruct (gui_test_run_shape fs self lines Hfs) as (ks & d & Hrun & _ & _ & _ & Hlen & Hks & Hc & _).
  eexists. exists ks. split; [exact Hrun|].
  rewrite calls_of_run_trace. change (calls (?e :: ?l)) with (calls l).
  auto.
Qed.

Lemma gui_test_calls_follow_the_file_witness :
  exists tr ks,
    exec (GuiTest.BatchDownloadThread.run (file_with sample_lines)
            (sample_batch (answers [returns 1; returns 0] (returns 0))))
    = (Normal tt, tr)
    /\ length ks = 2
    /\ Forall (fun k => k <= 5 /\ (1 <= 5 -> 1 <= k)) ks
    /\ map call_url (map fst (calls tr))
       = map call_url
           (call_blocks (map (gui_test_call (sample_batch (answers [returns 1; returns 0]
                                                               (returns 0))))
                           [playlist_url; track_url]) ks).
Proof.
  destruct (gui_test_calls_follow_the_file (file_with sample_lines)
              (sample_batch (answers [returns 1; returns 0] (returns 0)))
              sample_lines eq_refl) as (tr & ks & Hrun & Hlen & Hks & Hc).
  exists tr, ks. rewrite Hc. repeat split; assumption.
Defined.

Lemma list_sum_repeat (d m : nat) : list_sum (repeat d m) = m * d.
Proof. induction m as [|m IH]; [reflexivity|]. cbn [repeat list_sum fold_right] in *.
  change (fold_right Nat.add 0 (repeat d m)) with (list_sum (repeat d m)). rewrite IH. lia. Qed.

Lemma list_sum_pred_bound (ks : list nat) (m : nat) :
  Forall (fun k => k <= m) ks -> list_sum (map pred ks) <= length ks * (m - 1).
Proof.
  induction 1 as [|k ks Hk _ IH]; [reflexivity|].
  cbn [map length]. change (list_sum (pred k :: map pred ks)) with (pred k + list_sum (map pred ks)).
  cbn [Nat.mul]. lia.
Qed.

(** The time a batch run spends pausing: at most
    [max_retries - 1] pauses of [retry_delay] seconds for each job line. *)
Theorem gui_test_pause_budget (fs : string -> file_read)
    (self : GuiTest.BatchDownloadThread.t) (lines : list string) :
  fs (GuiTest.BatchDownloadThread.filepath self) = Lines lines ->
  list_sum (sleeps (snd (exec (GuiTest.BatchDownloadThread.run fs self))))
  <= count_job_lines lines
     * (GuiTest.BatchDownloadThread.max_retries self - 1)
     * GuiTest.BatchDownloadThread.retry_delay self.
Proof.
  intros Hfs.
  destruct (gui_test_run_shape fs self lines Hfs)
    as (ks & d & Hrun & _ & _ & _ & Hlen & Hks & _ & Hsl).
  rewrite Hrun. cbn [snd]. change (sleeps (?e :: ?l)) with (sleeps l).
  rewrite sleeps_app, app_nil_r, Hsl, list_sum_repeat, <- Hlen.
  apply Nat.mul_le_mono_r, list_sum_pred_bound.
  eapply Forall_impl; [|exact Hks]. now intros k [Hk _].
Qed.

Lemma gui_test_pause_budget_witness :
  list_sum (sleeps (snd (exec (GuiTest.BatchDownloadThread.run (file_with sample_lines)
                                 (sample_batch (always (returns 1)))))))
  <= 2 * (5 - 1) * 20.
Proof.
  exact (gui_test_pause_budget (file_with sample_lines) (sample_batch (always (returns 1)))
           sample_lines eq_refl).
Defined.

(** ** gui_test.py: a single download seen from the window *)

Ltac single_trace :=
  unfold bind, run_download, calls_made, GuiTest.DownloadThread.check_result, unlisted; simpl;
  match goal with
  | |- context [?dl 0 ?c0] =>
      destruct (dl 0 c0) as [[rc|]|e]; simpl;
      [ destruct (Py.eq_int rc 100); simpl;
        [ | destruct (Py.eq_int rc 101); simpl; [ | destruct (Py.eq_int rc 0); simpl ] ]
      | | ];
      eexists; (split; [reflexivity|]); (split; [reflexivity|]);
      try reflexivity; eexists _, _; reflexivity
  end.

(** The trace of a single download of one of the three types the window
    uses: one call, and one terminal event unless the answer is one the
    result check has no branch for. *)
Lemma gui_test_single_trace (self : GuiTest.DownloadThread.t) :
  let dt := GuiTest.DownloadThread.download_type self in
  dt = "track_album" \/ dt = "playlist" \/ dt = "search" ->
  let b := GuiTest.DownloadThread.downloader self 0 (single_call self) in
  exists tr,
    exec (GuiTest.DownloadThread.run self) = (Normal tt, tr)
    /\ calls tr = [(single_call self, b)]
    /\ if unlisted b then summaries tr = []
       else exists ok msg, summaries tr = [[Py.VBool ok; Py.VStr msg]].
Proof.
  intros dt Hdt. subst dt.
  unfold exec, GuiTest.DownloadThread.run, try_except, single_call.
  erewrite bind_normal by reflexivity.
  erewrite bind_normal by reflexivity.
  destruct Hdt as [-> | [-> | ->]]; cbn [String.eqb Ascii.eqb Bool.eqb andb].
  - destruct (Py.contains "album" (Py.lower (GuiTest.DownloadThread.url self)));
      single_trace.
  - single_trace.
  - single_trace.
Qed.

(** What [start_single_download] starts, when it starts something. *)
Lemma start_single_download_started (env : environment) (backend : Backend)
    (f : form) (d : string -> option file_read) (th : thread) :
  started (shown (snd (start_single_download env backend (fresh f d)))) = Some th ->
  let url := Py.strip (url_input f) in
  Py.truthy url = true
  /\ (search_checkbox f = true
      \/ Py.contains "spotify.com" (Py.lower url) = true
      \/ Py.startswith url "spotify:" = true)
  /\ makedirs env (output_dir_input f) = None
  /\ th = Single (GuiTest.DownloadThread.init (run_download_method backend) url
                    (if search_checkbox f then "search"
                     else if Py.contains "playlist" (Py.lower url) then "playlist"
                     else "track_album")
                    (output_dir_input f) (bitrate_combo f) (format_combo f)).
Proof.
  intros H url. revert H.
  unfold start_single_download, ubind, read_form, fresh, message_box, os_makedirs,
    widget, show, uret, uraise.
  cbn [inputs shown disk fst snd]. fold url.
  destruct (Py.truthy url); cbn [negb]; [|discriminate].
  destruct (search_checkbox f).
  - destruct (makedirs env (output_dir_input f)); cbn; [discriminate|].
    intros [= <-]. auto.
  - destruct (Py.contains "spotify.com" (Py.lower url)) eqn:Hc;
      destruct (Py.startswith url "spotify:") eqn:Hs; cbn [negb andb];
      try (cbn; discriminate);
      (destruct (Py.contains "playlist" (Py.lower url));
       (destruct (makedirs env (output_dir_input f)); cbn; [discriminate|]);
       intros [= <-]; auto).
Qed.

(** A single download started from the window: the thread makes exactly
    one call, for the trimmed text of the URL field, into the output
    directory of the form.  Search mode always takes the
    "artist - title" template; otherwise the template is the one the
    batch thread would choose for the URL: playlist before album before
    track. *)
Theorem window_single_download_route (env : environment) (backend : Backend)
    (f : form) (d : string -> option file_read) (t : GuiTest.DownloadThread.t) :
  started (shown (snd (start_single_download env backend (fresh f d)))) = Some (Single t) ->
  let url := Py.strip (url_input f) in
  exists tr c,
    exec (GuiTest.DownloadThread.run t) = (Normal tt, tr)
    /\ calls tr = [(c, run_download_method backend 0 c)]
    /\ call_url c = url
    /\ base (call_template c) = output_dir_input f
    /\ rel (call_template c)
       = (if search_checkbox f then "{artist} - {title}.{output-ext}"
          else if Py.contains "playlist" (Py.lower url) then "{playlist}/{title}.{output-ext}"
          else if Py.contains "album" (Py.lower url) then "{artist}/{album}/{title}.{output-ext}"
          else "{artist} - {title}.{output-ext}")
    /\ call_extra c
       = (if negb (search_checkbox f) && Py.contains "playlist" (Py.lower url)
          then PassedList ["--playlist-numbering"; "--playlist-retain-track-cover"]
          else NotPassed).
Proof.
  intros Hstart url.
  destruct (start_single_download_started env backend f d _ Hstart) as (_ & _ & _ & Ht).
  injection Ht as ->. fold url.
  match goal with |- context [GuiTest.DownloadThread.run ?t0] =>
    assert (Hdt : GuiTest.DownloadThread.download_type t0 = "track_album"
                  \/ GuiTest.DownloadThread.download_type t0 = "playlist"
                  \/ GuiTest.DownloadThread.download_type t0 = "search")
      by (cbn; destruct (search_checkbox f); [|destruct (Py.contains "playlist" (Py.lower url))];
          auto);
    destruct (gui_test_single_trace t0 Hdt) as (tr & Hrun & Hcalls & _)
  end.
  eexists tr, _. split; [exact Hrun|]. split; [exact Hcalls|].
  unfold single_call.
  cbn [call_url call_template call_extra base rel GuiTest.DownloadThread.url
       GuiTest.DownloadThread.output_dir GuiTest.DownloadThread.download_type].
  destruct (search_checkbox f); [repeat split|].
  destruct (Py.contains "playlist" (Py.lower url)); [repeat split|].
  destruct (Py.contains "album" (Py.lower url)); repeat split.
Qed.

Lemma window_single_download_route_witness :
  let f := form_with_url ("  " ++ playlist_album_url ++ " ") false in
  let t := GuiTest.DownloadThread.init (always (returns 0)) playlist_album_url "playlist"
             "Downloads" "320k" "mp3" in
  started (shown (snd (start_single_download calm (working (always (returns 0)))
                         (fresh f (fun _ => None))))) = Some (Single t)
  /\ exists tr c,
      exec (GuiTest.DownloadThread.run t) = (Normal tt, tr)
      /\ calls tr = [(c, returns 0)]
      /\ call_url c = playlist_album_url
      /\ base (call_template c) = "Downloads"
      /\ rel (call_template c) = "{playlist}/{title}.{output-ext}"
      /\ call_extra c = PassedList ["--playlist-numbering"; "--playlist-retain-track-cover"].
Proof.
  intros f t. split; [reflexivity|].
  exact (window_single_download_route calm (working (always (returns 0))) f (fun _ => None) t
           eq_refl).
Defined.

Lemma single_out_finished name ok msg :
  single_out (Emit name [Py.VBool ok; Py.VStr msg])
  = if name =? "finished_signal" then shown (snd (download_finished ok msg blank)) else [].
Proof. unfold single_out. cbn [single_slot]. now destruct (name =? "finished_signal"). Qed.

Lemma single_out_update name msg :
  single_out (Emit name [Py.VStr msg])
  = if name =? "update_signal" then shown (snd (update_console msg blank)) else [].
Proof. unfold single_out. cbn [single_slot]. now destruct (name =? "update_signal"). Qed.

(** The download button is enabled once for every terminal event of the
    single download. *)
Lemma single_button_reading t :
  widget_calls "download_button" "setEnabled" (flat_map single_out t)
  = flat_map (fun args => match args with
                          | [Py.VBool _; Py.VStr _] => [[Py.VBool true]]
                          | _ => []
                          end) (summaries t).
Proof.
  unfold summaries. rewrite flat_map_compose.
  apply reading_lifts; [reflexivity | apply widget_calls_app |].
  intros e. destruct e as [? ? ?|name args|? ?|?]; try reflexivity.
  destruct args as [|[m| |ok|] [|[m'| | |] [|? ?]]]; try reflexivity;
    try (cbn [flat_map app]; destruct (name =? "finished_signal"); reflexivity).
  - rewrite single_out_update. cbn [flat_map app].
    destruct (name =? "update_signal"); destruct (name =? "finished_signal"); reflexivity.
  - rewrite single_out_finished. cbn [flat_map app].
    destruct (name =? "finished_signal"); [|reflexivity].
    destruct ok; reflexivity.
Qed.

(** A single download started from the window gives the download button
    back exactly when the downloader's answer is one the result check
    knows: after a result whose [returncode] is not 0, 100 or 101 no slot
    runs and the button stays disabled. *)
Theorem window_single_download_button (env : environment) (backend : Backend)
    (f : form) (d : string -> option file_read) (t : GuiTest.DownloadThread.t) (w : world) :
  started (shown (snd (start_single_download env backend (fresh f d)))) = Some (Single t) ->
  exists w',
    run_thread (Single t) w = (Normal tt, w')
    /\ widget_calls "download_button" "setEnabled" (shown w')
       = (widget_calls "download_button" "setEnabled" (shown w)
          ++ (if unlisted (run_download_method backend 0 (single_call t))
              then [] else [[Py.VBool true]]))%list.
Proof.
  intros Hstart.
  destruct (start_single_download_started env backend f d _ Hstart) as (_ & _ & _ & Ht).
  injection Ht as ->.
  match goal with |- context [run_thread (Single ?t0)] =>
    assert (Hdt : GuiTest.DownloadThread.download_type t0 = "track_album"
                  \/ GuiTest.DownloadThread.download_type t0 = "playlist"
                  \/ GuiTest.DownloadThread.download_type t0 = "search")
      by (cbn; destruct (search_checkbox f);
          [|destruct (Py.contains "playlist" (Py.lower (Py.strip (url_input f))))]; auto);
    destruct (gui_test_single_trace t0 Hdt) as (tr & Hrun & _ & Hsum);
    set (t1 := t0) in *
  end.
  unfold run_thread.
  rewrite (deliver_shows single_slot single_out single_slot_shows), Hrun.
  eexists. split; [reflexivity|].
  cbn [snd extend shown]. rewrite widget_calls_app, single_button_reading.
  change (GuiTest.DownloadThread.downloader t1) with (run_download_method backend) in Hsum.
  destruct (unlisted (run_download_method backend 0 (single_call t1))).
  - now rewrite Hsum.
  - destruct Hsum as (ok & msg & ->). reflexivity.
Qed.

Lemma window_single_download_button_witness :
  let f := form_with_url track_url false in
  let t := GuiTest.DownloadThread.init (always (returns 1)) track_url "track_album"
             "Downloads" "320k" "mp3" in
  started (shown (snd (start_single_download calm (working (always (returns 1)))
                         (fresh f (fun _ => None))))) = Some (Single t)
  /\ exists w',
      run_thread (Single t) blank = (Normal tt, w')
      /\ widget_calls "download_button" "setEnabled" (shown w') = [].
Proof.
  intros f t. split; [reflexivity|].
  exact (window_single_download_button calm (working (always (returns 1))) f (fun _ => None)
           t blank eq_refl).
Defined.

(** What [start_batch_download] starts, when it starts something. *)
Lemma start_batch_download_started (env : environment) (backend : Backend)
    (f : form) (d : string -> option file_read) (th : thread) :
  started (shown (snd (start_batch_download env backend (fresh f d)))) = Some th ->
  Py.truthy (batch_file_input f) = true
  /\ d (batch_file_input f) <> None
  /\ th = Batch (GuiTest.BatchDownloadThread.init (run_download_method backend)
                   (batch_file_input f)
                   (if use_same_settings_check f then output_dir_input f else "BatchDownloads")
                   (if use_same_settings_check f then bitrate_combo f else "320k")
                   (if use_same_settings_check f then format_combo f else "mp3")
                   (max_retries_spin f) (retry_delay_spin f)).
Proof.
  unfold start_batch_download, ubind, read_form, path_exists, fresh, message_box, os_makedirs,
    widget, show, uret, uraise.
  cbn [inputs shown disk fst snd].
  destruct (Py.truthy (batch_file_input f)); cbn [negb orb]; [|cbn; discriminate].
  destruct (d (batch_file_input f)) as [file|]; cbn [negb]; [|cbn; discriminate].
  destruct (use_same_settings_check f).
  - destruct (makedirs env (output_dir_input f)); cbn; [discriminate|].
    intros [= <-]. repeat split. discriminate.
  - destruct (makedirs env "BatchDownloads"); cbn; [discriminate|].
    intros [= <-]. repeat split. discriminate.
Qed.

(** A batch started from the window on a readable file: the thread
    returns normally; every job line of the file is handed to the
    downloader at least once and at most ten times, in the order of the
    file; every pause lasts between one and sixty seconds; and the
    downloads go to the output directory of the form, or to
    "BatchDownloads" when the settings of the single tab are not used. *)
Theorem window_batch_attempts_every_line (env : environment) (backend : Backend)
    (f : form) (d : string -> option file_read) (t : GuiTest.BatchDownloadThread.t)
    (lines : list string) :
  spins_in_range f ->
  d (batch_file_input f) = Some (Lines lines) ->
  started (shown (snd (start_batch_download env backend (fresh f d)))) = Some (Batch t) ->
  exists tr ks,
    exec (GuiTest.BatchDownloadThread.run (fs_of d) t) = (Normal tt, tr)
    /\ length ks = count_job_lines lines
    /\ Forall (fun k => 1 <= k <= 10) ks
    /\ map fst (calls tr) = call_blocks (map (gui_test_call t) (read_urls lines)) ks
    /\ Forall (fun secs => 1 <= secs <= 60) (sleeps tr)
    /\ GuiTest.BatchDownloadThread.output_dir t
       = (if use_same_settings_check f then output_dir_input f else "BatchDownloads").
Proof.
  intros [Hmax Hdelay] Hdisk Hstart.
  destruct (start_batch_download_started env backend f d _ Hstart) as (_ & _ & Ht).
  injection Ht as ->.
  match goal with |- context [GuiTest.BatchDownloadThread.run _ ?t0] => set (t1 := t0) end.
  assert (Hfs : fs_of d (GuiTest.BatchDownloadThread.filepath t1) = Lines lines)
    by (unfold fs_of; cbn; now rewrite Hdisk).
  destruct (gui_test_run_shape (fs_of d) t1 lines Hfs)
    as (ks & dd & Hrun & _ & _ & _ & Hlen & Hks & Hc & Hsl).
  eexists. exists ks. split; [exact Hrun|].
  rewrite calls_of_run_trace.
  change (calls (?e :: ?l)) with (calls l). change (sleeps (?e :: ?l)) with (sleeps l).
  rewrite sleeps_app, app_nil_r, Hsl.
  cbn [GuiTest.BatchDownloadThread.max_retries GuiTest.BatchDownloadThread.retry_delay t1] in *.
  repeat split; auto.
  - eapply Forall_impl; [|exact Hks]. cbn beta. intros k [Hk Hk']. lia.
  - apply Forall_forall. intros x Hx. apply repeat_spec in Hx. subst x. exact Hdelay.
Qed.

Lemma window_batch_attempts_every_line_witness :
  let t := sample_batch (always (returns 1)) in
  spins_in_range (form_with_batch_file "urls.txt")
  /\ started (shown (snd (start_batch_download calm (working (always (returns 1)))
                            sample_window))) = Some (Batch t)
  /\ exists tr ks,
      exec (GuiTest.BatchDownloadThread.run
              (fs_of (one_file "urls.txt" (Lines sample_lines))) t) = (Normal tt, tr)
      /\ length ks = 2
      /\ Forall (fun k => 1 <= k <= 10) ks
      /\ map fst (calls tr) = call_blocks (map (gui_test_call t) [playlist_url; track_url]) ks
      /\ Forall (fun secs => 1 <= secs <= 60) (sleeps tr)
      /\ GuiTest.BatchDownloadThread.output_dir t = "Downloads".
Proof.
  intros t.
  assert (Hspin : spins_in_range (form_with_batch_file "urls.txt"))
    by (unfold spins_in_range; cbn; lia).
  split; [exact Hspin|]. split; [reflexivity|].
  exact (window_batch_attempts_every_line calm (working (always (returns 1)))
           (form_with_batch_file "urls.txt") (one_file "urls.txt" (Lines sample_lines))
           t sample_lines Hspin eq_refl eq_refl).
Defined.

(** ** The single download thread, whatever its type *)

Ltac thread_cases dl :=
  unfold bind, run_download, calls_made, ret, raise, emit, perform,
    GuiDownloader.private_output_dir,
    GuiTest.DownloadThread.check_result, GuiDownloader.DownloadThread.check_result; simpl;
  repeat match goal with
         | |- context [dl ?n ?c] => destruct (dl n c) as [[?rc|]|?e]; simpl
         | |- context [if Py.eq_int ?rc ?n then _ else _] => destruct (Py.eq_int rc n); simpl
         end;
  eexists; (split; [reflexivity|]); cbn; lia.

(** Whatever its download type and whatever the downloader does, the
    thread of a single download returns normally, in either file, after
    at most one call and at most one terminal event: the handler around
    the whole of [run] catches what is raised and its own emissions fit
    their signals. *)
Theorem download_threads_never_raise :
  (forall self : GuiTest.DownloadThread.t,
     exists tr,
       exec (GuiTest.DownloadThread.run self) = (Normal tt, tr)
       /\ length (calls tr) <= 1 /\ length (summaries tr) <= 1)
  /\ (forall self : GuiDownloader.DownloadThread.t,
        exists tr,
          exec (GuiDownloader.DownloadThread.run self) = (Normal tt, tr)
          /\ length (calls tr) <= 1 /\ length (summaries tr) <= 1).
Proof.
  split; intros self.
  - unfold exec, GuiTest.DownloadThread.run, try_except.
    erewrite bind_normal by reflexivity.
    erewrite bind_normal by reflexivity.
    destruct (GuiTest.DownloadThread.download_type self =? "track_album").
    { destruct (Py.contains "album" (Py.lower (GuiTest.DownloadThread.url self)));
        thread_cases (GuiTest.DownloadThread.downloader self). }
    destruct (GuiTest.DownloadThread.download_type self =? "playlist").
    { thread_cases (GuiTest.DownloadThread.downloader self). }
    destruct (GuiTest.DownloadThread.download_type self =? "search").
    { thread_cases (GuiTest.DownloadThread.downloader self). }
    destruct (GuiTest.DownloadThread.download_type self =? "file");
      thread_cases (GuiTest.DownloadThread.downloader self).
  - unfold exec, GuiDownloader.DownloadThread.run, try_except.
    erewrite bind_normal by reflexivity.
    erewrite bind_normal by reflexivity.
    destruct (GuiDownloader.DownloadThread.download_type self =? "track").
    { thread_cases (GuiDownloader.DownloadThread.downloader self). }
    destruct (GuiDownloader.DownloadThread.download_type self =? "album").
    { thread_cases (GuiDownloader.DownloadThread.downloader self). }
    destruct (GuiDownloader.DownloadThread.download_type self =? "playlist").
    { thread_cases (GuiDownloader.DownloadThread.downloader self). }
    destruct (GuiDownloader.DownloadThread.download_type self =? "search").
    { thread_cases (GuiDownloader.DownloadThread.downloader self). }
    destruct (GuiDownloader.DownloadThread.download_type self =? "file");
      thread_cases (GuiDownloader.DownloadThread.downloader self).
Qed.

(** In gui_downloader.py a single download of type "playlist" never
    reaches the downloader: reading [self.__output_dir] raises, and the
    thread reports the failure with the text of the [AttributeError]. *)
Theorem gui_downloader_playlist_download_never_starts (self : GuiDownloader.DownloadThread.t) :
  GuiDownloader.DownloadThread.download_type self = "playlist" ->
  exec (GuiDownloader.DownloadThread.run self)
  = (Normal tt,
     [Configure (GuiDownloader.DownloadThread.bitrate self)
        (GuiDownloader.DownloadThread.audio_format self)
        (GuiDownloader.DownloadThread.output_dir self);
      Emit "update_signal"
        [Py.VStr ("Starting download..." ++ nl ++ " URL: "
                  ++ GuiDownloader.DownloadThread.url self)];
      Emit "update_signal"
        [Py.VStr ("Error: " ++ Py.exn_str (attribute_error "DownloadThread"))];
      Emit "finished_signal"
        [Py.VBool false; Py.VStr (Py.exn_str (attribute_error "DownloadThread"))]]).
Proof.
  intros Hdt.
  unfold exec, GuiDownloader.DownloadThread.run, try_except.
  erewrite bind_normal by reflexivity.
  erewrite bind_normal by reflexivity.
  rewrite Hdt. reflexivity.
Qed.

Lemma gui_downloader_playlist_download_witness :
  let self := GuiDownloader.DownloadThread.init (always (returns 0)) playlist_url "playlist"
                "Downloads" "320k" "mp3" in
  calls (snd (exec (GuiDownloader.DownloadThread.run self))) = []
  /\ summaries (snd (exec (GuiDownloader.DownloadThread.run self)))
     = [[Py.VBool false; Py.VStr (Py.exn_str (attribute_error "DownloadThread"))]].
Proof.
  intros self.
  rewrite (gui_downloader_playlist_download_never_starts self eq_refl).
  split; reflexivity.
Defined.

(** A download type that [run] of gui_test.py does not know, such as the
    "track" and "album" of gui_downloader.py, makes no call: the local
    [result] is never assigned, and the thread reports the
    [UnboundLocalError] as a failed download. *)
Theorem gui_test_unknown_type_is_reported (self : GuiTest.DownloadThread.t) :
  let dt := GuiTest.DownloadThread.download_type self in
  dt <> "track_album" -> dt <> "playlist" -> dt <> "search" -> dt <> "file" ->
  exists tr,
    exec (GuiTest.DownloadThread.run self) = (Normal tt, tr)
    /\ calls tr = []
    /\ summaries tr = [[Py.VBool false; Py.VStr (Py.exn_str unbound_result)]].
Proof.
  intros dt H1 H2 H3 H4. subst dt.
  apply String.eqb_neq in H1, H2, H3, H4.
  unfold exec, GuiTest.DownloadThread.run, try_except.
  erewrite bind_normal by reflexivity.
  erewrite bind_normal by reflexivity.
  rewrite H1, H2, H3, H4.
  eexists. split; [reflexivity|]. split; reflexivity.
Qed.

Lemma gui_test_unknown_type_witness :
  let self := GuiTest.DownloadThread.init (always (returns 0)) track_url "track"
                "Downloads" "320k" "mp3" in
  exists tr,
    exec (GuiTest.DownloadThread.run self) = (Normal tt, tr)
    /\ calls tr = []
    /\ summaries tr = [[Py.VBool false; Py.VStr (Py.exn_str unbound_result)]].
Proof.
  intros self.
  apply (gui_test_unknown_type_is_reported self); cbn; discriminate.
Defined.

(** ** gui_downloader.py: the batch run, for every file *)

Section GuiDownloaderBatch.

Import GuiDownloader.BatchDownloadThread.

Variable self : t.

Lemma gui_downloader_retry_emits_no_summary url tpl extra (s : state) :
  exists d s',
    retry_loop self url tpl extra s = (Normal tt, s')
    /\ trace s' = (trace s ++ d)%list
    /\ summaries d = [].
Proof.
  apply (for_each_adds (fun d => summaries d = [])); [reflexivity | |].
  - intros d1 d2 H1 H2. now rewrite summaries_app, H1, H2.
  - intros a s0.
    destruct (gui_downloader_attempt_body self url tpl extra a s0)
      as (f & d & s' & Hrun & Ht & _ & Hs & _).
    exists f, d, s'. auto.
Qed.

(** One URL: a playlist-only URL raises before any call; any other URL
    costs [MAX_RETRIES] calls. *)
Lemma gui_downloader_process_url (total i : nat) (url : string) (s : state) :
  if playlist_only url then
    exists d s',
      process_url self total (i, url) s
      = (Raised (attribute_error "BatchDownloadThread"), s')
      /\ trace s' = (trace s ++ d)%list
      /\ calls d = [] /\ sleeps d = [] /\ summaries d = []
      /\ successes s' = successes s
  else
    exists d s',
      process_url self total (i, url) s = (Normal Next, s')
      /\ trace s' = (trace s ++ d)%list
      /\ length (calls d) = GuiDownloader.MAX_RETRIES
      /\ sleeps d = repeat GuiDownloader.RETRY_DELAY (GuiDownloader.MAX_RETRIES - 1)
      /\ summaries d = []
      /\ successes s' = successes s + count_success (calls d).
Proof.
  unfold process_url, playlist_only, select_template.
  do 2 run_emit.
  destruct (Py.contains "album" (Py.lower url)); cbn [negb andb].
  - erewrite bind_normal by reflexivity. cbn beta iota.
    match goal with |- context [bind (retry_loop self url ?tpl ?extra) _ ?s1] =>
      destruct (gui_downloader_retry_loop_runs_to_the_end self url tpl extra s1)
        as (d & s' & Hrun & Ht & Hc & Hsl & Hsucc);
      destruct (gui_downloader_retry_emits_no_summary url tpl extra s1)
        as (d' & s'' & Hrun' & Ht' & Hs)
    end.
    destruct (same_addition _ _ _ _ _ _ _ _ Hrun Ht Hrun' Ht') as (_ & _ & <-).
    erewrite bind_normal by exact Hrun.
    cbn [trace successes] in *.
    eexists (_ :: _ :: d), s'. split; [reflexivity|].
    split; [now rewrite Ht, <- !app_assoc|].
    cbn [summaries calls sleeps flat_map Qt.sig_name progress_signal update_signal
         String.eqb Ascii.eqb Bool.eqb app].
    fold (summaries d) (calls d) (sleeps d).
    repeat split; assumption.
  - destruct (Py.contains "playlist" (Py.lower url)).
    + eexists [_; _], _. split; [reflexivity|].
      cbn [trace successes]. rewrite <- app_assoc. repeat split.
    + erewrite bind_normal by reflexivity. cbn beta iota.
      match goal with |- context [bind (retry_loop self url ?tpl ?extra) _ ?s1] =>
        destruct (gui_downloader_retry_loop_runs_to_the_end self url tpl extra s1)
          as (d & s' & Hrun & Ht & Hc & Hsl & Hsucc);
        destruct (gui_downloader_retry_emits_no_summary url tpl extra s1)
          as (d' & s'' & Hrun' & Ht' & Hs)
      end.
      destruct (same_addition _ _ _ _ _ _ _ _ Hrun Ht Hrun' Ht') as (_ & _ & <-).
      erewrite bind_normal by exact Hrun.
      cbn [trace successes] in *.
      eexists (_ :: _ :: d), s'. split; [reflexivity|].
      split; [now rewrite Ht, <- !app_assoc|].
      cbn [summaries calls sleeps flat_map Qt.sig_name progress_signal update_signal
           String.eqb Ascii.eqb Bool.eqb app].
      fold (summaries d) (calls d) (sleeps d).
      repeat split; assumption.
Qed.

Lemma gui_downloader_url_loop (total : nat) : forall urls i s,
  exists o d s',
    for_each (combine (seq i (length urls)) urls) (process_url self total) s = (o, s')
    /\ trace s' = (trace s ++ d)%list
    /\ o = (if existsb playlist_only urls
            then Raised (attribute_error "BatchDownloadThread") else Normal tt)
    /\ length (calls d) = GuiDownloader.MAX_RETRIES * length (before_playlist urls)
    /\ sleeps d = repeat GuiDownloader.RETRY_DELAY
                    ((GuiDownloader.MAX_RETRIES - 1) * length (before_playlist urls))
    /\ summaries d = []
    /\ successes s' = successes s + count_success (calls d).
Proof.
  induction urls as [|url urls IH]; intros i s.
  - exists (Normal tt), [], s. cbn. rewrite app_nil_r. repeat split; auto.
  - cbn [length seq combine for_each existsb before_playlist].
    pose proof (gui_downloader_process_url total i url s) as H.
    destruct (playlist_only url); cbn [orb].
    + destruct H as (d & s' & Hrun & Ht & Hc & Hsl & Hs & Hsucc).
      erewrite bind_raised by exact Hrun.
      exists (Raised (attribute_error "BatchDownloadThread")), d, s'.
      rewrite Hc, Hsl, Hs, Hsucc. cbn [length]. rewrite !Nat.mul_0_r.
      cbn [length repeat count_success]. repeat split; auto.
    + destruct H as (d1 & s1 & R1 & T1 & C1 & L1 & S1 & N1).
      destruct (IH (S i) s1) as (o & d2 & s2 & R2 & T2 & O2 & C2 & L2 & S2 & N2).
      erewrite bind_normal by exact R1.
      exists o, (d1 ++ d2)%list, s2.
      rewrite calls_app, sleeps_app, summaries_app, count_success_app, length_app.
      rewrite C1, C2, L1, L2, S1, S2, T2, T1, N2, N1, <- repeat_app, <- app_assoc.
      cbn [length]. repeat split; auto; try lia.
      f_equal. lia.
Qed.

End GuiDownloaderBatch.

(** The batch run of gui_downloader.py on a readable file, in full.  It
    works through the job lines up to the first one that has "playlist"
    in it and no "album"; each line before costs five calls and four
    pauses of thirty seconds, whatever the downloader answers.  On such a
    line the run ends in an [AttributeError] without a terminal event;
    without such a line it ends with a summary whose first number is the
    number of calls the downloader answered with success. *)
Theorem gui_downloader_batch_run_in_full (fs : string -> file_read)
    (self : GuiDownloader.BatchDownloadThread.t) (lines : list string) :
  fs (GuiDownloader.BatchDownloadThread.filepath self) = Lines lines ->
  let urls := read_urls lines in
  let done := length (before_playlist urls) in
  exists tr,
    length (calls tr) = 5 * done
    /\ sleeps tr = repeat 30 (4 * done)
    /\ if existsb playlist_only urls then
         exec (GuiDownloader.BatchDownloadThread.run fs self)
         = (Raised (attribute_error "BatchDownloadThread"), tr)
         /\ summaries tr = []
       else
         exec (GuiDownloader.BatchDownloadThread.run fs self) = (Normal tt, tr)
         /\ summaries tr = [[Py.VInt (Z.of_nat (count_success (calls tr)));
                             Py.VInt (Z.of_nat (length urls))]].
Proof.
  intros Hfs urls done. subst done.
  unfold exec, GuiDownloader.BatchDownloadThread.run, read_lines. rewrite Hfs.
  erewrite bind_normal by reflexivity.
  erewrite bind_normal by reflexivity.
  fold urls.
  destruct urls as [|url rest] eqn:Hurls.
  - eexists. cbn. repeat split; reflexivity.
  - rewrite <- Hurls.
    erewrite bind_normal by reflexivity.
    unfold Py.enumerate1.
    match goal with |- context [bind (for_each _ _) _ ?s1] =>
      destruct (gui_downloader_url_loop self (length urls) urls 1 s1)
        as (o & d & s' & Hrun & Ht & Ho & Hc & Hsl & Hs & Hsucc)
    end.
    cbn [trace successes initial app perform set_success] in Ht, Hsucc.
    change GuiDownloader.MAX_RETRIES with 5 in Hc, Hsl.
    change GuiDownloader.RETRY_DELAY with 30 in Hsl.
    change (5 - 1) with 4 in Hsl.
    destruct (existsb playlist_only urls); subst o.
    + erewrite bind_raised by exact Hrun.
      exists (trace s'). rewrite Ht.
      match goal with |- context [calls (?c :: d)] =>
        change (calls (c :: d)) with (calls d);
        change (sleeps (c :: d)) with (sleeps d);
        change (summaries (c :: d)) with (summaries d)
      end.
      repeat split; assumption.
    + erewrite bind_normal by exact Hrun.
      erewrite bind_normal by reflexivity.
      unfold emit. cbn [Qt.check GuiDownloader.BatchDownloadThread.finished_signal
                        Qt.sig_types Qt.sig_name length Nat.eqb negb
                        Qt.first_mismatch Qt.accepts perform trace successes].
      rewrite Ht, Hsucc. cbn [Nat.add app].
      match goal with |- context [(Normal tt, ?tr) = _] => exists tr end.
      rewrite calls_of_run_trace.
      match goal with |- context [calls (?c :: d)] =>
        change (calls (c :: d)) with (calls d);
        change (sleeps (c :: d ++ ?e)%list) with (sleeps (d ++ e));
        change (summaries (c :: d ++ ?e)%list) with (summaries (d ++ e))
      end.
      rewrite sleeps_app, summaries_app, Hs, app_nil_r.
      repeat split; assumption.
Qed.

Lemma gui_downloader_batch_run_in_full_witness :
  exists tr,
    length (calls tr) = 5
    /\ sleeps tr = [30; 30; 30; 30]
    /\ exec (GuiDownloader.BatchDownloadThread.run
               (file_with sample_playlist_lines) sample_downloader_thread)
       = (Raised (attribute_error "BatchDownloadThread"), tr)
    /\ summaries tr = [].
Proof.
  destruct (gui_downloader_batch_run_in_full (file_with sample_playlist_lines)
              sample_downloader_thread sample_playlist_lines eq_refl)
    as (tr & Hc & Hsl & Hrun & Hs).
  exists tr. repeat split; assumption.
Defined.

(** ** The job list of a batch file *)

Lemma rstrip_newline s : Py.rstrip (s ++ nl) = Py.rstrip s.
Proof.
  induction s as [|c s IH]; [reflexivity|].
  cbn [append Py.rstrip]. now rewrite IH.
Qed.

Lemma strip_newline s : Py.strip (s ++ nl) = Py.strip s.
Proof.
  unfold Py.strip.
  induction s as [|c s IH]; [reflexivity|].
  cbn [append Py.lstrip]. destruct (Py.isspace c); [exact IH|].
  exact (rstrip_newline (String c s)).
Qed.

Lemma rstrip_cons c s :
  Py.rstrip (String c s)
  = match Py.rstrip s with
    | EmptyString => if Py.isspace c then EmptyString else String c EmptyString
    | r => String c r
    end.
Proof. reflexivity. Qed.

Lemma rstrip_rstrip s : Py.rstrip (Py.rstrip s) = Py.rstrip s.
Proof.
  induction s as [|c s IH]; [reflexivity|].
  cbn [Py.rstrip].
  destruct (Py.rstrip s) as [|a r] eqn:E.
  - destruct (Py.isspace c) eqn:Hc; [reflexivity|].
    cbn [Py.rstrip]. now rewrite Hc.
  - rewrite rstrip_cons, IH. reflexivity.
Qed.

Lemma strip_strip s : Py.strip (Py.strip s) = Py.strip s.
Proof.
  unfold Py.strip.
  destruct (Py.lstrip s) as [|c r] eqn:E; [reflexivity|].
  pose proof (lstrip_head _ _ _ E) as Hc.
  destruct (rstrip_keeps_head c r Hc) as [r' Hr].
  rewrite Hr. cbn [Py.lstrip]. rewrite Hc, <- Hr.
  apply rstrip_rstrip.
Qed.

Lemma job_line_of_strip line : is_job_line (Py.strip line ++ nl) = is_job_line line.
Proof.
  rewrite <- !read_urls_filter. now rewrite strip_newline, strip_strip.
Qed.

(** What the list comprehension of the two batch threads hands on: every
    job is a non-empty text that does not begin with [#] and has no
    white space at either end. *)
Theorem read_urls_gives_trimmed_jobs (lines : list string) :
  Forall (fun url => Py.truthy url = true
                     /\ Py.startswith url "#" = false
                     /\ Py.strip url = url
                     /\ is_job_line url = true)
         (read_urls lines).
Proof.
  unfold read_urls. apply Forall_forall. intros url Hin.
  apply in_map_iff in Hin. destruct Hin as (line & <- & Hin).
  apply filter_In in Hin. destruct Hin as [_ Hjob].
  apply andb_true_iff in Hjob. destruct Hjob as [Ht Hs].
  apply negb_true_iff in Hs.
  repeat split; auto using strip_strip.
  rewrite <- read_urls_filter, strip_strip, Ht, Hs. reflexivity.
Qed.

(** A file that holds the jobs of a batch file, one on each line, reads
    back as the same jobs: comments, blank lines and the white space
    around a job are all the reading drops. *)
Theorem read_urls_round_trip (lines : list string) :
  read_urls (map (fun url => url ++ nl) (read_urls lines)) = read_urls lines.
Proof.
  unfold read_urls.
  rewrite !(filter_ext _ is_job_line read_urls_filter).
  induction lines as [|line lines IH]; [reflexivity|].
  cbn [filter]. destruct (is_job_line line) eqn:Hjob; [|exact IH].
  cbn [map filter]. rewrite job_line_of_strip, Hjob.
  cbn [map]. rewrite strip_newline, strip_strip. f_equal. exact IH.
Qed.

(** ** gui_test.py: the methods behind the buttons *)





(** [check_spotdl_installation] never raises, whatever the downloader,
    pip and the user do: an exception of [check_spotdl] and an exception
    of pip that [install_spotdl] lets through are both shown in a
    critical box.  pip runs only after [check_spotdl] has answered no
    and the user has answered yes, and then once.  The kinds of the
    boxes shown are fixed by these answers. *)
Theorem check_spotdl_installation_never_raises (env : environment) (backend : Backend)
    (f : form) (d : string -> option file_read) :
  exists w',
    check_spotdl_installation env backend (fresh f d) = (Normal tt, w')
    /\ inputs w' = f /\ disk w' = d
    /\ invoked (shown w') = ["check_spotdl"]
    /\ pip_runs (shown w')
       = (match check_spotdl backend, answer env "spotdl Not Found" with
          | Gives false, Yes => 1
          | _, _ => 0
          end)
    /\ map (fun b => fst (fst b)) (boxes (shown w'))
       = (match check_spotdl backend with
          | Throws _ => ["critical"]
          | Gives true => ["information"]
          | Gives false =>
              match answer env "spotdl Not Found" with
              | No => ["question"]
              | Yes =>
                  match check_call env with
                  | None => ["question"; "information"]
                  | Some _ => ["question"; "critical"]
                  end
              end
          end).
Proof.
  unfold check_spotdl_installation, install_spotdl, utry, utry_class, call_backend, ubind,
    message_box, widget, show, uret, uraise, fresh.
  cbn [inputs shown disk fst snd app].
  destruct (check_spotdl backend) as [[|]|e]; cbn [inputs shown disk fst snd app].
  - eexists. repeat split.
  - destruct (answer env "spotdl Not Found"); cbn [inputs shown disk fst snd app].
    + destruct (check_call env) as [e|]; cbn [inputs shown disk fst snd app].
      * destruct (Py.exn_class e =? "CalledProcessError");
          cbn [inputs shown disk fst snd app]; eexists; repeat split.
      * eexists. repeat split.
    + eexists. repeat split.
  - eexists. repeat split.
Qed.

(** On its own [install_spotdl] catches [CalledProcessError] only: any
    other exception of the pip run leaves the method, after the console
    line and the run, with no box shown. *)
Theorem install_spotdl_lets_other_errors_through (env : environment) (w : world)
    (e : Py.exn) :
  check_call env = Some e ->
  Py.exn_class e <> "CalledProcessError" ->
  install_spotdl env w
  = (Raised e, extend w [Widget "console_output" "append" [Py.VStr "Installing spotdl..."];
                         Pip]).
Proof.
  intros Hcall Hclass.
  unfold install_spotdl, utry_class, ubind, message_box, widget, show, uret, uraise, extend.
  cbn [inputs shown disk fst snd]. rewrite Hcall.
  cbn [inputs shown disk fst snd].
  destruct (String.eqb_spec (Py.exn_class e) "CalledProcessError") as [E|_]; [contradiction|].
  now rewrite <- app_assoc.
Qed.

Lemma install_spotdl_lets_other_errors_through_witness :
  install_spotdl no_python blank
  = (Raised (file_not_found "python"),
     extend blank [Widget "console_output" "append" [Py.VStr "Installing spotdl..."]; Pip]).
Proof.
  apply install_spotdl_lets_other_errors_through; [reflexivity|discriminate].
Defined.




(** ** The preview of a batch file *)

Lemma length_append (a b : string) :
  String.length (a ++ b) = String.length a + String.length b.
Proof. induction a as [|c a IH]; [reflexivity|]. cbn [append String.length]. now rewrite IH. Qed.

Lemma take_cons n c s : take (S n) (String c s) = String c (take n s).
Proof. reflexivity. Qed.

Lemma take_nothing s : take 0 s = EmptyString.
Proof. destruct s; reflexivity. Qed.

Lemma length_take n : forall s, String.length (take n s) = Nat.min n (String.length s).
Proof.
  induction n as [|n IH]; intros s.
  - now rewrite take_nothing.
  - destruct s as [|c s]; [reflexivity|].
    rewrite take_cons. cbn [String.length Nat.min]. now rewrite IH.
Qed.

Lemma take_all n : forall s, String.length s <= n -> take n s = s.
Proof.
  induction n as [|n IH]; intros s Hs.
  - destruct s; [reflexivity|]. cbn [String.length] in Hs. lia.
  - destruct s as [|c s]; [reflexivity|].
    rewrite take_cons. cbn [String.length] in Hs. rewrite IH by lia. reflexivity.
Qed.

Lemma take_of_longer n : forall s t, n <= String.length s -> take n (take n s ++ t) = take n s.
Proof.
  induction n as [|n IH]; intros s t Hs.
  - now rewrite !take_nothing.
  - destruct s as [|c s]; [cbn [String.length] in Hs; lia|].
    rewrite take_cons. cbn [append]. rewrite take_cons.
    cbn [String.length] in Hs. rewrite IH by lia. reflexivity.
Qed.

(** [preview_batch_file] never raises and sets the preview once.  For a
    readable file the text is made of the first ten lines only and is
    never longer than 516 characters: up to 500 characters it is these
    lines as they are, beyond that their first 500 characters and a
    mark of 16 characters.  For any other file the text says why it
    could not be read. *)
Theorem preview_batch_file_is_bounded (path : string) (w : world) :
  exists text,
    preview_batch_file path w
    = (Normal tt, extend w [Widget "file_preview" "setText" [Py.VStr text]])
    /\ match disk w path with
       | Some (Lines lines) =>
           let content := join (firstn 10 lines) in
           String.length text <= 516
           /\ take 500 text = take 500 content
           /\ (if (String.length content <=? 500)%nat then text = content
               else String.length text = 516)
       | Some (ReadError e) => text = "Error reading file: " ++ Py.exn_str e
       | None => text = "Error reading file: " ++ Py.exn_str (file_not_found path)
       end.
Proof.
  unfold preview_batch_file, utry, ubind, open_lines, widget, show, extend.
  destruct (disk w path) as [[lines|e]|]; try (eexists; split; reflexivity).
  set (content := join (firstn 10 lines)).
  destruct (Nat.ltb_spec 500 (String.length content)) as [Hlong|Hshort].
  - eexists. split; [reflexivity|]. cbv zeta. fold content.
    destruct (Nat.leb_spec (String.length content) 500) as [Hle|_]; [lia|].
    rewrite take_of_longer by lia.
    rewrite length_append, length_take.
    change (String.length (nl ++ "... (truncated)")) with 16.
    repeat split; lia.
  - eexists. split; [reflexivity|]. cbv zeta. fold content.
    destruct (Nat.leb_spec (String.length content) 500) as [_|Hgt]; [|lia].
    repeat split. lia.
Qed.

(** ** From the file dialogs to the thread *)









(** ** gui_test.py: a downloader that answers by the call alone *)

Lemma runWithRetries_same_answer results r :
  (forall a, results a = r) ->
  forall remaining attempt,
    runWithRetries results attempt (S remaining)
    = match r with
      | UnknownFailure =>
          ({| succeeded := false; attemptsUsed := attempt + remaining |}, remaining)
      | Success => ({| succeeded := true; attemptsUsed := attempt |}, 0)
      | _ => ({| succeeded := false; attemptsUsed := attempt |}, 0)
      end.
Proof.
  intros Hr. induction remaining as [|m IH]; intros attempt.
  - cbn [runWithRetries]. rewrite Hr. destruct r; rewrite ?Nat.add_0_r; reflexivity.
  - change (runWithRetries results attempt (S (S m)))
      with (match results attempt with
            | Success => ({| succeeded := true; attemptsUsed := attempt |}, 0)
            | MetadataError | LookupError =>
                ({| succeeded := false; attemptsUsed := attempt |}, 0)
            | UnknownFailure =>
                let '(o, pauses) := runWithRetries results (S attempt) (S m) in
                (o, S pauses)
            end).
    rewrite IH, Hr. destruct r; try reflexivity.
    cbv beta iota. now rewrite Nat.add_succ_r.
Qed.

Section GuiTestStateless.

Import GuiTest.BatchDownloadThread.

Variable self : t.
Variable answer : call -> behaviour.
Hypothesis by_the_call_alone : forall n c, downloader self n c = answer c.
Hypothesis some_attempt : 1 <= max_retries self.

Lemma gui_test_process_url_stateless (total i : nat) (url : string) (s : state) :
  let c := gui_test_call self url in
  exists d s',
    process_url self total (i, url) s = (Normal Next, s')
    /\ trace s' = (trace s ++ d)%list
    /\ summaries d = []
    /\ calls d = repeat (c, answer c) (tries (max_retries self) (answer c))
    /\ sleeps d = repeat (retry_delay self) (tries (max_retries self) (answer c) - 1)
    /\ successes s' = successes s + (if is_success (c, answer c) then 1 else 0).
Proof.
  cbv zeta. unfold process_url, gui_test_call.
  destruct (select_template self url) as [tpl extra]. cbn [fst snd].
  do 2 run_emit.
  match goal with |- context [bind (retry_loop self url tpl extra) _ ?s1] =>
    destruct (gui_test_retry_loop_refines self url tpl extra s1)
      as (d & s' & Hrun & Ht & Hs & Hc & Hsl & Hsucc & Hcs)
  end.
  erewrite bind_normal by exact Hrun.
  cbn [ret trace successes] in *.
  set (c := {| call_url := url; call_template := tpl; call_extra := extra |}) in *.
  destruct (max_retries self) as [|m] eqn:Hmax; [lia|].
  rewrite (runWithRetries_same_answer _ (attempt_result (answer c))) in Hc, Hsl, Hcs
    by (intros a; now rewrite by_the_call_alone).
  rewrite (map_ext _ (fun _ => (c, answer c))) in Hc
    by (intros a; now rewrite by_the_call_alone).
  rewrite map_constant, length_seq in Hc.
  eexists (_ :: _ :: d), s'.
  split; [reflexivity|].
  split; [now rewrite Ht, <- !app_assoc|].
  cbn [summaries calls sleeps flat_map Qt.sig_name progress_signal update_signal
       String.eqb Ascii.eqb Bool.eqb app].
  fold (summaries d) (calls d) (sleeps d).
  rewrite Hsucc, Hcs, Hs, Hc, Hsl.
  unfold tries, decided, is_success. cbn [snd].
  destruct (attempt_result (answer c)); cbn [fst snd attemptsUsed succeeded Nat.add Nat.sub];
    rewrite ?Nat.sub_0_r; repeat split.
Qed.

Lemma gui_test_url_loop_stateless (total : nat) : forall urls i s,
  let jobs := map (gui_test_call self) urls in
  exists d s',
    for_each (combine (seq i (length urls)) urls) (process_url self total) s = (Normal tt, s')
    /\ trace s' = (trace s ++ d)%list
    /\ summaries d = []
    /\ calls d = flat_map (fun c => repeat (c, answer c) (tries (max_retries self) (answer c)))
                   jobs
    /\ sleeps d = repeat (retry_delay self)
                    (list_sum (map (fun c => tries (max_retries self) (answer c) - 1) jobs))
    /\ successes s' = successes s + length (filter (fun c => is_success (c, answer c)) jobs).
Proof.
  cbv zeta. induction urls as [|url urls IH]; intros i s.
  - exists [], s. cbn. rewrite app_nil_r. repeat split; auto.
  - cbn [length seq combine for_each map flat_map filter].
    destruct (gui_test_process_url_stateless total i url s)
      as (d1 & s1 & R1 & T1 & S1 & C1 & L1 & N1).
    destruct (IH (S i) s1) as (d2 & s2 & R2 & T2 & S2 & C2 & L2 & N2).
    erewrite bind_normal by exact R1.
    exists (d1 ++ d2)%list, s2.
    rewrite summaries_app, calls_app, sleeps_app.
    rewrite S1, S2, C1, C2, L1, L2, T2, T1, N2, N1.
    match goal with |- context [list_sum (?k :: ?l)] =>
      change (list_sum (k :: l)) with (k + list_sum l)
    end.
    rewrite repeat_app, <- app_assoc.
    repeat split; auto.
    destruct (is_success (gui_test_call self url, answer (gui_test_call self url)));
      cbn [length]; lia.
Qed.

End GuiTestStateless.

(** A batch run of gui_test.py with a downloader whose answer depends
    on the call alone, and at least one attempt allowed.  The run calls
    the downloader once for a job whose answer is a success or a
    classified failure, and [max_retries] times for any other job, in
    the order of the file; it pauses [retry_delay] seconds between two
    calls for the same job and nowhere else; and its summary counts the
    jobs whose answer is a success, out of all the jobs. *)
Theorem gui_test_run_by_the_call_alone (fs : string -> file_read)
    (self : GuiTest.BatchDownloadThread.t) (answer : call -> behaviour)
    (lines : list string) :
  fs (GuiTest.BatchDownloadThread.filepath self) = Lines lines ->
  (forall n c, GuiTest.BatchDownloadThread.downloader self n c = answer c) ->
  1 <= GuiTest.BatchDownloadThread.max_retries self ->
  let jobs := map (gui_test_call self) (read_urls lines) in
  let k c := tries (GuiTest.BatchDownloadThread.max_retries self) (answer c) in
  exists tr,
    exec (GuiTest.BatchDownloadThread.run fs self) = (Normal tt, tr)
    /\ calls tr = flat_map (fun c => repeat (c, answer c) (k c)) jobs
    /\ sleeps tr = repeat (GuiTest.BatchDownloadThread.retry_delay self)
                     (list_sum (map (fun c => k c - 1) jobs))
    /\ summaries tr
       = [[Py.VInt (Z.of_nat (length (filter (fun c => is_success (c, answer c)) jobs)));
           Py.VInt (Z.of_nat (length jobs))]].
Proof.
  intros Hfs Hdl Hmax. cbv zeta. rewrite length_map.
  unfold exec, GuiTest.BatchDownloadThread.run, read_lines. rewrite Hfs.
  erewrite bind_normal by reflexivity.
  erewrite bind_normal by reflexivity.
  destruct (read_urls lines) as [|url urls] eqn:Hurls.
  - eexists. split; [reflexivity|]. cbn. repeat split.
  - rewrite <- Hurls.
    erewrite bind_normal by reflexivity.
    unfold Py.enumerate1.
    match goal with |- context [bind (for_each _ _) _ ?s1] =>
      destruct (gui_test_url_loop_stateless self answer Hdl Hmax
                  (length (read_urls lines)) (read_urls lines) 1 s1)
        as (d & s' & Hrun & Ht & Hs & Hc & Hsl & Hsucc)
    end.
    erewrite bind_normal by exact Hrun.
    cbn [trace successes initial app perform set_success] in Ht, Hsucc.
    erewrite bind_normal by reflexivity.
    unfold emit. cbn [Qt.check GuiTest.BatchDownloadThread.finished_signal Qt.sig_types
                      Qt.sig_name length Nat.eqb negb
                      Qt.first_mismatch Qt.accepts perform trace successes].
    rewrite Ht, Hsucc. cbn [Nat.add app].
    eexists. split; [reflexivity|].
    rewrite calls_of_run_trace.
    match goal with |- context [calls (?c :: d)] =>
      change (calls (c :: d)) with (calls d);
      change (sleeps (c :: d ++ ?e)%list) with (sleeps (d ++ e));
      change (summaries (c :: d ++ ?e)%list) with (summaries (d ++ e))
    end.
    rewrite sleeps_app, summaries_app, Hs, Hc, Hsl, app_nil_r.
    repeat split.
Qed.

Lemma gui_test_run_by_the_call_alone_witness :
  exists tr,
    exec (GuiTest.BatchDownloadThread.run (file_with sample_lines)
            (sample_batch (always (returns 0))))
    = (Normal tt, tr)
    /\ length (calls tr) = 2
    /\ sleeps tr = []
    /\ summaries tr = [[Py.VInt 2; Py.VInt 2]].
Proof.
  destruct (gui_test_run_by_the_call_alone (file_with sample_lines)
              (sample_batch (always (returns 0))) (fun _ => returns 0) sample_lines)
    as (tr & Hrun & Hc & Hsl & Hs); [reflexivity|reflexivity|cbn; lia|].
  exists tr. split; [exact Hrun|]. rewrite Hc, Hsl, Hs. repeat split.
Defined.
